(** * Node-classification pipeline of [main.py]

    A shallow embedding of [src/main.py]: the function [node_classification]
    and the script entry point, with the collaborators that live outside
    [main.py] ([utils], [pre_processing], the learning libraries) taken as an
    explicit record of functions.  Effects are threaded explicitly: a run
    maps a [World] (checkpoint files on disk, random-generator state) to a
    final world, the list of collaborator calls it made and an outcome. *)

From Stdlib Require Import ZArith QArith Qfield Ascii String.
From stdpp Require Import base gmap strings list pretty sorting.

Local Open Scope Z_scope.

(** ** Python primitives used by [main.py] *)

Module Py.

(** [str(i)] for a Python [int], as an f-string field [{i}] renders it. *)
Definition str_int (i : Z) : string := pretty i.

(** Characters that [str(int)] can produce: an optional sign and digits. *)
Definition numeric_char (c : ascii) : bool :=
  bool_decide (c ∈ ["-"; "0"; "1"; "2"; "3"; "4"; "5"; "6"; "7"; "8"; "9"]%char).

Fixpoint all_numeric (s : string) : bool :=
  match s with
  | EmptyString => true
  | String c s' => numeric_char c && all_numeric s'
  end.

(** Text that cannot continue a number: empty, or starting with a
    character that [str(int)] never produces. *)
Definition stops_number (t : string) : bool :=
  match t with
  | EmptyString => true
  | String c _ => negb (numeric_char c)
  end.

(** [s.startswith(t)] *)
Fixpoint startswith (s t : string) : bool :=
  match t, s with
  | EmptyString, _ => true
  | String c t', String d s' => bool_decide (c = d) && startswith s' t'
  | String _ _, EmptyString => false
  end.

(** [s.endswith("/")] *)
Fixpoint endswith_sep (s : string) : bool :=
  match s with
  | EmptyString => false
  | String c EmptyString => bool_decide (c = "/"%char)
  | String _ s' => endswith_sep s'
  end.

(** [os.path.join(a, b)] of [posixpath], for two components. *)
Definition path_join (a b : string) : string :=
  if startswith b "/" then b
  else if bool_decide (a = "") || endswith_sep a then a +:+ b
  else a +:+ "/" +:+ b.

(** Exceptions that the body of [main.py] itself can raise. *)
Inductive exn : Type :=
| NameError (name : string)
| SystemExit (code : Z).

Inductive res (A : Type) : Type :=
| Ok (a : A)
| Raised (e : exn).
Arguments Ok {A} a.
Arguments Raised {A} e.

End Py.

(** ** The checkpoint name (main.py, lines 135-136) *)

(** [f'gc_model_test_attack_{n_neigh}_hid_{hid}_convs_{num_convs}{"_aug" if augmentation else ""}'] *)
Definition model_name (n_neigh hid num_convs : Z) (augmentation : bool) : string :=
  "gc_model_test_attack_" +:+ Py.str_int n_neigh +:+
  "_hid_" +:+ Py.str_int hid +:+
  "_convs_" +:+ Py.str_int num_convs +:+
  (if augmentation then "_aug" else "").

(** [os.path.join(model_path, f'{model_name}.h5')] *)
Definition model_trained_path (model_path name : string) : string :=
  Py.path_join model_path (name +:+ ".h5").

(** ** Data model *)

(** Model parameters (a [state_dict]), flattened to a vector of numbers.
    Floating-point values are represented by exact rationals. *)
Definition StateDict : Type := list Q.

(** State of the pseudo-random generators that the learning libraries use
    (parameter initialisation, dropout, shuffling of the node loaders). *)
Definition Rng : Type := N.

(** A graph ([torch_geometric.data.Data]): one row of features and one
    label per node, and the edge list. *)
Record Data : Type := mkData {
  data_x : list (list Q);
  data_edge_index : list (nat * nat);
  data_y : list Z
}.

Definition num_nodes (d : Data) : nat := length (data_x d).

(** [dataset.num_features]: the width of the feature matrix. *)
Definition num_features (d : Data) : Z :=
  Z.of_nat (length (hd [] (data_x d))).

(** Keyword arguments of one [AnomalyDetectionNodeClassificationDataset(...)]
    call; [ds_augmentation = None] when the call site does not pass
    [augmentation]. *)
Record DatasetArgs : Type := mkDatasetArgs {
  ds_root : string;
  ds_file_name : string;
  ds_num_neighbors : Z;
  ds_augmentation : option bool;
  ds_val : bool;
  ds_test : bool
}.

(** [RandomNodeLoader(data, num_parts=..., shuffle=...)] *)
Record Loader : Type := mkLoader {
  ld_data : Data;
  ld_num_parts : Z;
  ld_shuffle : bool
}.

(** Keyword arguments of the [NodeClassificator(...)] call. *)
Record ModelArgs : Type := mkModelArgs {
  ma_dataset : Data;
  ma_num_classes : Z;
  ma_num_convs : Z;
  ma_hid : Z;
  ma_alpha : Q;
  ma_theta : Q;
  ma_dropout : Q
}.

Inductive Device : Type := cuda | cpu.

(** [nn.CrossEntropyLoss(weight=...)] *)
Record Criterion : Type := CrossEntropyLoss { ce_weight : list Q }.

(** [Adadelta(params)]: the two running averages kept per parameter. *)
Record Optimizer : Type := mkOptimizer {
  square_avg : list Q;
  acc_delta : list Q
}.

Definition Adadelta (params : StateDict) : Optimizer :=
  {| square_avg := (λ _, 0%Q) <$> params; acc_delta := (λ _, 0%Q) <$> params |}.

(** Arguments of the [train(...)] call of main.py, lines 141-155. *)
Record TrainArgs : Type := mkTrainArgs {
  ta_model : StateDict;
  ta_train_loader : Loader;
  ta_criterion : Criterion;
  ta_criterion_val : Criterion;
  ta_optimizer : Optimizer;
  ta_device : Device;
  ta_model_path : string;
  ta_logger : string;
  ta_epochs : Z;
  ta_model_name : string;
  ta_evaluation : bool;
  ta_val_dataloader : Loader;
  ta_patience : Z
}.

(** The seven paths returned by [get_path_of_all]. *)
Record Paths : Type := mkPaths {
  log_path : string;
  log_file_path : string;
  log_train_path : string;
  model_path : string;
  result_path : string;
  confusion_matrix_path : string;
  detection_rate_path : string
}.

(** What a [logger.info(...)] call is given. *)
Inductive Msg : Type :=
| Text (s : string)
| TextFloat (prefix : string) (v : Q)
| TextReport (report : string)
| ReprData (d : Data)
| ReprModel (a : ModelArgs).

(** Calls that leave [main.py], in the order a run makes them. *)
Inductive Event : Type :=
| CreateDirectory (directory : string)
| SetupLogger (name path : string)
| BuildDataset (a : DatasetArgs)
| LogInfo (logger : string) (m : Msg)
| MakeLoader (l : Loader)
| MakeModel (a : ModelArgs)
| MakeCriterion (c : Criterion)
| LoadStateDict (path : string) (sd : StateDict)
| Train (a : TrainArgs)
| Predict (model : StateDict) (l : Loader) (dev : Device)
| PlotConfusionMatrix (cm : list (list Q)) (labels : list string) (path : string)
| PlotRecall (labels : list string) (recall : list Q) (path : string).

(** The part of the machine a run reads and writes: the checkpoint files
    on disk (path to stored parameters), the random-generator state and
    whether a GPU is present.  What is stored under a path is a loadable
    state dict; of the collaborators only [train] writes checkpoint files. *)
Record World : Type := mkWorld {
  files : gmap string StateDict;
  rng : Rng;
  cuda_is_available : bool
}.

(** A binding of the module namespace: a string, or any other object
    (module, class, function). *)
Inductive Binding : Type :=
| BStr (s : string)
| BObject.

(** [format(value, '')], as an f-string field applies it. *)
Definition format_field (b : Binding) : string :=
  match b with
  | BStr s => s
  | BObject => "<object>"
  end.

(** ** Collaborators

    Everything [main.py] imports from the rest of the repository and from
    the learning libraries.  The collaborators return normally.  The
    dataset builder is a function of its arguments (the raw records under
    [root] are fixed input); the learning steps thread the random-generator
    state. *)
Record Collaborators : Type := mkCollaborators {
  (** [utils.SEPARATOR] *)
  SEPARATOR : string;
  (** [pre_processing.MAPPING], as its items in insertion order *)
  MAPPING : list (string * Z);
  (** [utils.get_path_of_all(NAME_DIR, num_neigh=, hid=, n_convs=, augmentation=)] *)
  get_path_of_all : string → Z → Z → Z → bool → Paths;
  (** [utils.str2bool] *)
  str2bool : string → option bool;
  (** [AnomalyDetectionNodeClassificationDataset(...)[0]] *)
  build_graph : DatasetArgs → Data;
  (** initial parameters of [NodeClassificator(...)] *)
  init_parameters : ModelArgs → Rng → StateDict * Rng;
  (** one pass of optimisation over the partitions of the train loader *)
  fit_epoch : StateDict → Optimizer → Loader → Criterion → Device → Rng →
              StateDict * Optimizer * Rng;
  (** the validation loss accumulated over the partitions of the loader *)
  validation_loss : StateDict → Loader → Criterion → Device → Rng → Q * Rng;
  (** [utils.nc_model.predict(model, loader, device)] *)
  predict : StateDict → Loader → Device → Rng → (list Z * list Z) * Rng;
  (** [sklearn.metrics]: pure functions of [(y_true, y_pred)] *)
  accuracy_score : list Z → list Z → Q;
  balanced_accuracy_score : list Z → list Z → Q;
  classification_report : list Z → list Z → string;
  confusion_matrix_true : list Z → list Z → list (list Q);
  recall_score_none : list Z → list Z → list Q
}.

(** ** The effect monad of a run *)

Definition M (A : Type) : Type := World → World * list Event * Py.res A.

Global Instance M_ret : MRet M := λ A a w, (w, [], Py.Ok a).

Global Instance M_bind : MBind M := λ A B f m w,
  match m w with
  | (w1, t1, Py.Ok a) =>
      match f a w1 with
      | (w2, t2, r) => (w2, t1 ++ t2, r)
      end
  | (w1, t1, Py.Raised e) => (w1, t1, Py.Raised e)
  end.

Definition emit (e : Event) : M unit := λ w, (w, [e], Py.Ok tt).

Definition raise {A : Type} (e : Py.exn) : M A := λ w, (w, [], Py.Raised e).

Definition get_world : M World := λ w, (w, [], Py.Ok w).

Definition put_world (w : World) : M unit := λ _, (w, [], Py.Ok tt).

Definition trace_of {A : Type} (r : World * list Event * Py.res A) : list Event :=
  r.1.2.

Definition world_of {A : Type} (r : World * list Event * Py.res A) : World :=
  r.1.1.

Definition outcome_of {A : Type} (r : World * list Event * Py.res A) : Py.res A :=
  r.2.

Definition set_rng (g : Rng) (w : World) : World :=
  {| files := files w; rng := g; cuda_is_available := cuda_is_available w |}.

Definition set_files (f : gmap string StateDict) (w : World) : World :=
  {| files := f; rng := rng w; cuda_is_available := cuda_is_available w |}.

(** A library call that consumes randomness. *)
Definition with_rng {A : Type} (f : Rng → A * Rng) : M A := λ w,
  let r := f (rng w) in (set_rng r.2 w, [], Py.Ok r.1).

(** [for x in l: body(x)] *)
Fixpoint for_each {A : Type} (l : list A) (body : A → M unit) : M unit :=
  match l with
  | [] => mret tt
  | x :: l' => body x;; for_each l' body
  end.

(** Name lookup in the module namespace ([LOAD_GLOBAL]). *)
Definition load_global (G : gmap string Binding) (name : string) : M Binding :=
  match G !! name with
  | Some b => mret b
  | None => raise (Py.NameError name)
  end.

(** ** Class weights ([sklearn.utils.class_weight]) *)

(** [np.unique(y)]: the distinct labels in increasing order. *)
Definition np_unique (y : list Z) : list Z := merge_sort Z.le (remove_dups y).

(** [np.bincount] restricted to one class: how often [c] occurs in [y]. *)
Definition bincount (y : list Z) (c : Z) : nat := count_occ Z.eq_dec y c.

(** The ['balanced'] weight of class [c]:
    [n_samples / (n_classes * bincount(y)[c])]. *)
Definition balanced_weight (y : list Z) (c : Z) : Q :=
  inject_Z (Z.of_nat (length y)) /
  (inject_Z (Z.of_nat (length (np_unique y))) * inject_Z (Z.of_nat (bincount y c))).

(** [compute_class_weight('balanced', classes=np.unique(y), y=y)]: one
    weight per distinct label, in the order of [np.unique(y)]. *)
Definition compute_class_weight (y : list Z) : list Q :=
  balanced_weight y <$> np_unique y.

(** ** The node partition loader ([torch_geometric.loader.RandomNodeLoader])

    The loader is a [DataLoader] over [range(num_nodes)] with batches of
    [ceil(num_nodes / num_parts)] indices that collates a batch of indices
    into the subgraph they induce.  With [shuffle=True] the sampler draws a
    new permutation of the indices each time an iteration starts. *)

Module NodeLoader.

(** One yielded batch: the nodes of the part (with their identities in the
    whole graph) and the edges with both endpoints inside the part. *)
Record Part : Type := mkPart {
  part_nodes : list nat;
  part_edges : list (nat * nat)
}.

(** [data.subgraph(index)] *)
Definition subgraph (d : Data) (index : list nat) : Part :=
  {| part_nodes := index;
     part_edges := filter (λ e, e.1 ∈ index ∧ e.2 ∈ index) (data_edge_index d) |}.

(** [math.ceil(num_nodes / num_parts)], for [num_parts >= 1]. *)
Definition batch_size (l : Loader) : nat :=
  Z.to_nat ((Z.of_nat (num_nodes (ld_data l)) + ld_num_parts l - 1) / ld_num_parts l).

(** Consecutive batches of [b] indices; the last one may be shorter. *)
Fixpoint batches (fuel b : nat) (order : list nat) : list (list nat) :=
  match fuel with
  | O => []
  | S fuel' =>
      match order with
      | [] => []
      | _ :: _ => take b order :: batches fuel' b (drop b order)
      end
  end.

(** One traversal of the loader.  [perm] is the permutation of
    [range(num_nodes)] that the sampler draws for this traversal; it is
    used only when [shuffle] is set. *)
Definition iterate (l : Loader) (perm : list nat) : list Part :=
  let n := num_nodes (ld_data l) in
  let order := if ld_shuffle l then perm else seq 0 n in
  subgraph (ld_data l) <$> batches n (batch_size l) order.

End NodeLoader.

(** ** The training loop ([utils.nc_model.train]) *)

Module NcModel.

Inductive Phase : Type := IMPROVING | STALLED | STOPPED.

(** Training run state: best validation loss seen ([None] is +infinity)
    and the count of consecutive epochs without improvement. *)
Record EarlyStop : Type := mkEarlyStop {
  es_phase : Phase;
  es_best : option Q;
  es_stall : nat
}.

Definition es_init : EarlyStop :=
  {| es_phase := IMPROVING; es_best := None; es_stall := 0 |}.

(** [v < best-loss] *)
Definition improves (v : Q) (best : option Q) : bool :=
  match best with
  | None => true
  | Some b => negb (Qle_bool b v)
  end.

(** What one epoch left behind: its validation loss and the parameters
    the model had at the end of the epoch. *)
Record EpochRecord : Type := mkEpochRecord {
  ep_val_loss : Q;
  ep_model : StateDict
}.

Record LoopResult : Type := mkLoopResult {
  lr_state : EarlyStop;
  lr_model : StateDict;
  lr_optimizer : Optimizer;
  lr_world : World;
  (** the epochs that were run, newest first *)
  lr_history : list EpochRecord
}.

(** Modelled from the spec: the checkpoint persisted "under [model_name]"
    in the checkpoint directory is the file the caller looks for before it
    trains. *)
Definition checkpoint_path (a : TrainArgs) : string :=
  model_trained_path (ta_model_path a) (ta_model_name a).

Definition stopped (es : EarlyStop) : EarlyStop :=
  {| es_phase := STOPPED; es_best := es_best es; es_stall := es_stall es |}.

(** Modelled from the spec: [utils/nc_model.py] is not part of the sources;
    this is the Training Loop Controller of section 4.4.  Each epoch makes
    one optimisation pass over the train partitions, then (when validation
    is enabled) accumulates the validation loss [v].  If [v < best-loss]
    the state becomes IMPROVING, best-loss is set to [v], the stall counter
    is reset and the current parameters are persisted under [model_name];
    otherwise the stall counter is incremented and the loop ends in STOPPED
    once it reaches [patience], else the state is STALLED.  STOPPED is also
    reached when the epochs are exhausted.  The model is updated in place:
    the parameters returned are those of the last epoch run.  This is the
    loop of a training call that returns normally; [Controller.loop] adds
    the failure cases of section 4.4 (no partitions, non-finite loss) and
    agrees with this loop whenever it finishes. *)
Fixpoint train_loop (E : Collaborators) (a : TrainArgs) (remaining : nat)
    (es : EarlyStop) (model : StateDict) (opt : Optimizer) (w : World)
    (hist : list EpochRecord) : LoopResult :=
  match remaining with
  | O => mkLoopResult (stopped es) model opt w hist
  | S remaining' =>
      let '(model1, opt1, g1) :=
        fit_epoch E model opt (ta_train_loader a) (ta_criterion a)
                  (ta_device a) (rng w) in
      if ta_evaluation a then
        let '(v, g2) :=
          validation_loss E model1 (ta_val_dataloader a) (ta_criterion_val a)
                          (ta_device a) g1 in
        let hist1 := mkEpochRecord v model1 :: hist in
        if improves v (es_best es) then
          train_loop E a remaining' (mkEarlyStop IMPROVING (Some v) 0)
            model1 opt1
            (set_files (<[checkpoint_path a := model1]> (files w)) (set_rng g2 w))
            hist1
        else
          let s := S (es_stall es) in
          if (ta_patience a <=? Z.of_nat s)%Z then
            mkLoopResult (mkEarlyStop STOPPED (es_best es) s)
              model1 opt1 (set_rng g2 w) hist1
          else
            train_loop E a remaining' (mkEarlyStop STALLED (es_best es) s)
              model1 opt1 (set_rng g2 w) hist1
      else
        train_loop E a remaining' es model1 opt1 (set_rng g1 w) hist
  end.

Definition run_train (E : Collaborators) (a : TrainArgs) (w : World) : LoopResult :=
  train_loop E a (Z.to_nat (ta_epochs a)) es_init (ta_model a)
             (ta_optimizer a) w [].

(** [train(model, ...)]: runs the loop; the caller's [model] holds the
    parameters the loop ended with. *)
Definition train (E : Collaborators) (a : TrainArgs) : M StateDict := λ w,
  let r := run_train E a w in (lr_world r, [], Py.Ok (lr_model r)).

(** Number of epochs without improvement at the end of a history (newest
    first): an epoch does not improve when some earlier epoch had a
    validation loss at most as large. *)
Fixpoint trailing_stall (losses : list Q) : nat :=
  match losses with
  | [] => 0
  | v :: older =>
      if existsb (λ u, Qle_bool u v) older then S (trailing_stall older) else 0
  end.

Definition losses (h : list EpochRecord) : list Q := ep_val_loss <$> h.

(** [best] is the epoch of the history [h] (newest first) with the best
    validation loss: strictly better than every earlier epoch and not
    beaten by any later one. *)
Definition best_epoch (h : list EpochRecord) (best : EpochRecord) : Prop :=
  ∃ newer older, h = newer ++ best :: older ∧
    (∀ o, o ∈ older → (ep_val_loss best < ep_val_loss o)%Q) ∧
    (∀ x, x ∈ newer → (ep_val_loss best <= ep_val_loss x)%Q).

(** What holds whenever the loop is about to run an epoch. *)
Record loop_inv (a : TrainArgs) (es : EarlyStop) (model : StateDict) (w : World)
    (hist : list EpochRecord) : Prop := {
  inv_stall : es_stall es = trailing_stall (losses hist);
  inv_patience : ∀ newer older, hist = newer ++ older →
    Z.of_nat (trailing_stall (losses older)) < ta_patience a;
  inv_best :
    match es_best es with
    | None => hist = []
    | Some b => ∃ best, best_epoch hist best ∧ b = ep_val_loss best ∧
                        files w !! checkpoint_path a = Some (ep_model best)
    end;
  inv_model : ∀ last, head hist = Some last → model = ep_model last
}.

(** What holds when the loop has ended, having had room for [bound]
    epochs in total. *)
Record loop_post (a : TrainArgs) (bound : nat) (r : LoopResult) : Prop := {
  post_phase : es_phase (lr_state r) = STOPPED;
  post_length : (length (lr_history r) ≤ bound)%nat;
  post_ran : (0 < bound)%nat → lr_history r ≠ [];
  post_stop : (length (lr_history r) < bound)%nat →
    Z.of_nat (trailing_stall (losses (lr_history r))) = ta_patience a;
  post_before : ∀ newer older, lr_history r = newer ++ older → newer ≠ [] →
    Z.of_nat (trailing_stall (losses older)) < ta_patience a;
  post_best : lr_history r ≠ [] →
    ∃ best, best_epoch (lr_history r) best ∧
            es_best (lr_state r) = Some (ep_val_loss best) ∧
            files (lr_world r) !! checkpoint_path a = Some (ep_model best);
  post_model : ∀ last, head (lr_history r) = Some last →
    lr_model r = ep_model last
}.

Arguments inv_stall {_ _ _ _ _} _.
Arguments inv_patience {_ _ _ _ _} _.
Arguments inv_best {_ _ _ _ _} _.
Arguments inv_model {_ _ _ _ _} _.
Arguments post_phase {_ _ _} _.
Arguments post_length {_ _ _} _.
Arguments post_ran {_ _ _} _.
Arguments post_stop {_ _ _} _.
Arguments post_before {_ _ _} _.
Arguments post_best {_ _ _} _.
Arguments post_model {_ _ _} _.

End NcModel.

(** ** [node_classification] (main.py, lines 36-180) *)

Definition NAME_DIR : string := "01 - Node Classification".

(** The keys of [MAPPING], in insertion order ([MAPPING.keys()]). *)
Definition MAPPING_keys (E : Collaborators) : list string := fst <$> MAPPING E.

Definition train_dataset_args (dataset_path : string) (n_neigh : Z)
    (augmentation : bool) : DatasetArgs :=
  {| ds_root := dataset_path; ds_file_name := "UNSW-NB15-train.csv";
     ds_num_neighbors := n_neigh; ds_augmentation := Some augmentation;
     ds_val := false; ds_test := false |}.

Definition val_dataset_args (dataset_path : string) (n_neigh : Z) : DatasetArgs :=
  {| ds_root := dataset_path; ds_file_name := "UNSW-NB15-val.csv";
     ds_num_neighbors := n_neigh; ds_augmentation := None;
     ds_val := true; ds_test := false |}.

Definition test_dataset_args (dataset_path : string) (n_neigh : Z) : DatasetArgs :=
  {| ds_root := dataset_path; ds_file_name := "UNSW-NB15-test.csv";
     ds_num_neighbors := n_neigh; ds_augmentation := None;
     ds_val := false; ds_test := true |}.

(** The body of [node_classification], with the names that [main.py] does
    not bind itself resolved in the namespace [G] when they are read. *)
Definition node_classification_in (G : gmap string Binding) (E : Collaborators)
    (dataset_path : string) (n_neigh : Z) (augmentation : bool)
    (hid num_convs : Z) : M unit :=
  (* Get path of all file *)
  let P := get_path_of_all E NAME_DIR n_neigh hid num_convs augmentation in
  for_each [log_path P; model_path P; confusion_matrix_path P; detection_rate_path P]
    (λ directory, emit (CreateDirectory directory));;
  (* Init logger *)
  emit (SetupLogger "logger" (log_file_path P));;
  emit (SetupLogger "training" (log_train_path P));;
  let logger := "logger" in
  let train_logger := "training" in
  (* Create path of training and test dataset *)
  let _file_name_training := "UNSW-NB15-train.csv" in
  let _file_path_training :=
    Py.path_join (Py.path_join dataset_path "raw") _file_name_training in
  (* Create training, val and test dataset *)
  let train_dataset := train_dataset_args dataset_path n_neigh augmentation in
  emit (BuildDataset train_dataset);;
  let val_dataset := val_dataset_args dataset_path n_neigh in
  emit (BuildDataset val_dataset);;
  let test_dataset := test_dataset_args dataset_path n_neigh in
  emit (BuildDataset test_dataset);;
  emit (LogInfo logger
    (Text ("Number of features: " +:+
           Py.str_int (num_features (build_graph E train_dataset)))));;
  emit (LogInfo logger (Text "Number of classes: 10"));;
  emit (LogInfo logger (Text (SEPARATOR E)));;
  (* Define train, val and test loader *)
  let train_data := build_graph E train_dataset in
  let val_data := build_graph E val_dataset in
  let test_data := build_graph E test_dataset in
  (* Log info of train, val and test *)
  emit (LogInfo logger (ReprData train_data));;
  emit (LogInfo logger (ReprData val_data));;
  emit (LogInfo logger (ReprData test_data));;
  emit (LogInfo logger (Text (SEPARATOR E)));;
  (* Define train, val and test loader *)
  let train_loader := mkLoader train_data 64 true in
  emit (MakeLoader train_loader);;
  let val_loader := mkLoader val_data 64 true in
  emit (MakeLoader val_loader);;
  let test_loader := mkLoader test_data 64 true in
  emit (MakeLoader test_loader);;
  (* Define model *)
  emit (LogInfo logger (Text ("N. Convs: " +:+ Py.str_int num_convs)));;
  emit (LogInfo logger (Text ("N. Hidden Channels: " +:+ Py.str_int hid)));;
  emit (LogInfo logger (Text (SEPARATOR E)));;
  emit (LogInfo train_logger (Text ("N. Convs: " +:+ Py.str_int num_convs)));;
  emit (LogInfo train_logger (Text ("N. Hidden Channels: " +:+ Py.str_int hid)));;
  emit (LogInfo train_logger (Text (SEPARATOR E)));;
  let model_args :=
    {| ma_dataset := train_data; ma_num_classes := 2; ma_num_convs := num_convs;
       ma_hid := hid; ma_alpha := 0.5; ma_theta := 0.7; ma_dropout := 0.5 |} in
  emit (MakeModel model_args);;
  model ← with_rng (init_parameters E model_args);
  (* Use GPU *)
  w ← get_world;
  let device := if cuda_is_available w then cuda else cpu in
  emit (LogInfo logger (ReprModel model_args));;
  emit (LogInfo logger (Text (SEPARATOR E)));;
  (* Define loss function and optmizer *)
  let y := data_y (build_graph E train_dataset) in
  let class_weights := compute_class_weight y in
  let criterion := CrossEntropyLoss class_weights in
  emit (MakeCriterion criterion);;
  let y_val := data_y (build_graph E val_dataset) in
  let class_weights_val := compute_class_weight y_val in
  let criterion_val := CrossEntropyLoss class_weights_val in
  emit (MakeCriterion criterion_val);;
  let optimizer := Adadelta model in
  (* Check if model is trained *)
  let name := model_name n_neigh hid num_convs augmentation in
  let path := model_trained_path (model_path P) name in
  w ← get_world;
  model ←
    match files w !! path with
    | Some stored =>
        emit (LoadStateDict path stored);;
        mret stored
    (* Train model if is not trained *)
    | None =>
        let a :=
          {| ta_model := model; ta_train_loader := train_loader;
             ta_criterion := criterion; ta_criterion_val := criterion_val;
             ta_optimizer := optimizer; ta_device := device;
             ta_model_path := model_path P; ta_logger := train_logger;
             ta_epochs := 1000; ta_model_name := name; ta_evaluation := true;
             ta_val_dataloader := val_loader; ta_patience := 20 |} in
        emit (Train a);;
        trained ← NcModel.train E a;
        emit (LogInfo train_logger (Text (SEPARATOR E)));;
        mret trained
    end;
  (* Test model *)
  emit (Predict model test_loader device);;
  predicted ← with_rng (predict E model test_loader device);
  let y_true := predicted.1 in
  let y_pred := predicted.2 in
  emit (LogInfo logger (TextFloat "Accuracy on test: " (accuracy_score E y_true y_pred)));;
  emit (LogInfo logger
    (TextFloat "Balanced accuracy on test: " (balanced_accuracy_score E y_true y_pred)));;
  emit (LogInfo logger (TextReport (classification_report E y_true y_pred)));;
  (* Plot results *)
  proto_type ← load_global G "proto_type";
  let image_name :=
    "node-classification_" +:+ Py.str_int n_neigh +:+
    "_" +:+ format_field proto_type +:+
    "_hid_" +:+ Py.str_int hid +:+ "_convs_" +:+ Py.str_int num_convs +:+
    (if augmentation then "_aug" else "") +:+
    ".png" in
  (* Confusion Matrix *)
  let cm := confusion_matrix_true E y_true y_pred in
  emit (PlotConfusionMatrix cm (MAPPING_keys E)
          (Py.path_join (confusion_matrix_path P) image_name));;
  (* Detection rate *)
  let recall := recall_score_none E y_true y_pred in
  emit (PlotRecall (MAPPING_keys E) recall
          (Py.path_join (detection_rate_path P) image_name)).

(** The names bound in the namespace of [main.py] when it runs as a script:
    its imports, [NAME_DIR], [node_classification], and the [parser] and
    [args] of the entry block.  No builtin is called [proto_type] either. *)
Definition main_globals (E : Collaborators) : gmap string Binding :=
  list_to_map
    [("final", BObject); ("np", BObject); ("argparse", BObject); ("os", BObject);
     ("torch", BObject); ("nn", BObject); ("Adadelta", BObject);
     ("class_weight", BObject); ("MAPPING", BObject);
     ("AnomalyDetectionNodeClassificationDataset", BObject);
     ("RandomNodeLoader", BObject); ("NodeClassificator", BObject);
     ("train", BObject); ("predict", BObject); ("accuracy_score", BObject);
     ("recall_score", BObject); ("classification_report", BObject);
     ("balanced_accuracy_score", BObject); ("confusion_matrix", BObject);
     ("SEPARATOR", BStr (SEPARATOR E)); ("str2bool", BObject);
     ("get_path_of_all", BObject); ("create_directory", BObject);
     ("plot_confusion_matrix", BObject); ("plot_recall", BObject);
     ("setup_logger", BObject); ("NAME_DIR", BStr NAME_DIR);
     ("node_classification", BObject); ("parser", BObject); ("args", BObject)].

(** [node_classification] as [main.py] defines it. *)
Definition node_classification (E : Collaborators) (dataset_path : string)
    (n_neigh : Z) (augmentation : bool) (hid num_convs : Z) : M unit :=
  node_classification_in (main_globals E) E dataset_path n_neigh augmentation
    hid num_convs.

(** ** The entry point (main.py, lines 183-197) *)

(** The parsed arguments: one attribute per [add_argument(dest=...)]. *)
Record Namespace : Type := mkNamespace {
  args_aug : bool;
  args_neigh : Z;
  args_hid : Z;
  args_n_convs : Z
}.

(** The option strings declared by the four [add_argument] calls. *)
Definition option_strings : list string := ["-aug"; "-neigh"; "-hid"; "-n_convs"].

(** The [default=] values. *)
Definition parser_defaults : Namespace :=
  {| args_aug := true; args_neigh := 0; args_hid := 2048; args_n_convs := 16 |}.

Definition digit_value (c : ascii) : option Z :=
  let n := Z.of_nat (nat_of_ascii c) in
  if (48 <=? n) && (n <=? 57) then Some (n - 48) else None.

Fixpoint parse_digits (s : string) (acc : Z) : option Z :=
  match s with
  | EmptyString => Some acc
  | String c s' => d ← digit_value c; parse_digits s' (10 * acc + d)
  end.

(** [int(s)] for the plain decimal literals: an optional sign and digits. *)
Definition parse_int (s : string) : option Z :=
  match s with
  | EmptyString => None
  | String c s' =>
      if bool_decide (c = "-"%char) then
        if bool_decide (s' = "") then None else Z.opp <$> parse_digits s' 0
      else if bool_decide (c = "+"%char) then
        if bool_decide (s' = "") then None else parse_digits s' 0
      else parse_digits s 0
  end.

(** [parser.parse_args()] on arguments given as option/value pairs;
    [None] stands for the parser's error exit. *)
Fixpoint parse_args (E : Collaborators) (argv : list string) (ns : Namespace)
    : option Namespace :=
  match argv with
  | [] => Some ns
  | opt :: value :: rest =>
      if bool_decide (opt = "-aug") then
        b ← str2bool E value;
        parse_args E rest
          (mkNamespace b (args_neigh ns) (args_hid ns) (args_n_convs ns))
      else if bool_decide (opt = "-neigh") then
        i ← parse_int value;
        parse_args E rest
          (mkNamespace (args_aug ns) i (args_hid ns) (args_n_convs ns))
      else if bool_decide (opt = "-hid") then
        i ← parse_int value;
        parse_args E rest
          (mkNamespace (args_aug ns) (args_neigh ns) i (args_n_convs ns))
      else if bool_decide (opt = "-n_convs") then
        i ← parse_int value;
        parse_args E rest
          (mkNamespace (args_aug ns) (args_neigh ns) (args_hid ns) i)
      else None
  | [_] => None
  end.

(** The [if __name__ == "__main__":] block; [cwd] is [os.getcwd()]. *)
Definition main (E : Collaborators) (cwd : string) (argv : list string) : M unit :=
  match parse_args E argv parser_defaults with
  | Some args =>
      node_classification E (Py.path_join cwd "dataset")
        (args_neigh args) (args_aug args) (args_hid args) (args_n_convs args)
  | None => raise (Py.SystemExit 2)
  end.

(** ** Observations on the trace of a run *)

Definition train_calls (t : list Event) : list TrainArgs :=
  omap (λ e, match e with Train a => Some a | _ => None end) t.

Definition criteria_made (t : list Event) : list Criterion :=
  omap (λ e, match e with MakeCriterion c => Some c | _ => None end) t.

Definition loaders_made (t : list Event) : list Loader :=
  omap (λ e, match e with MakeLoader l => Some l | _ => None end) t.

Definition models_made (t : list Event) : list ModelArgs :=
  omap (λ e, match e with MakeModel a => Some a | _ => None end) t.

Definition models_evaluated (t : list Event) : list StateDict :=
  omap (λ e, match e with Predict m _ _ => Some m | _ => None end) t.

(** The datasets a run builds for the given split, with their graphs. *)
Definition datasets_built (E : Collaborators) (keep : DatasetArgs → bool)
    (t : list Event) : list (DatasetArgs * Data) :=
  omap (λ e, match e with
             | BuildDataset a => if keep a then Some (a, build_graph E a) else None
             | _ => None
             end) t.

Definition is_val_or_test (a : DatasetArgs) : bool := ds_val a || ds_test a.

(** The labels handed to the two plotting functions. *)
Definition plot_labels (t : list Event) : list (list string) :=
  omap (λ e, match e with
             | PlotConfusionMatrix _ labels _ => Some labels
             | PlotRecall labels _ _ => Some labels
             | _ => None
             end) t.

(** The evaluation metrics a run computes: the logged accuracy, balanced
    accuracy and report, and the arrays handed to the plots. *)
Definition is_metric (e : Event) : bool :=
  match e with
  | LogInfo _ (TextFloat _ _) | LogInfo _ (TextReport _)
  | PlotConfusionMatrix _ _ _ | PlotRecall _ _ _ => true
  | _ => false
  end.

Definition metrics (t : list Event) : list Event := filter is_metric t.

(** ** A concrete scenario

    The ten-node graph of the spec's end-to-end scenarios, a one-parameter
    threshold classifier and a table of validation losses, used to run the
    definitions above on explicit inputs. *)
Module Scenario.

Definition graph10 : Data :=
  {| data_x := [[0]; [1]; [2]; [3]; [4]; [5]; [6]; [7]; [8]; [9]]%Q;
     data_edge_index := [(0, 1); (1, 2); (2, 3); (8, 9)]%nat;
     data_y := [0; 0; 0; 0; 0; 0; 0; 0; 0; 1] |}.

Definition classes : list (string * Z) :=
  [("Normal", 0); ("Analysis", 1); ("Backdoor", 2); ("DoS", 3);
   ("Exploits", 4); ("Fuzzers", 5); ("Generic", 6); ("Reconnaissance", 7);
   ("Shellcode", 8); ("Worms", 9)].

Definition paths : Paths :=
  {| log_path := "result/log"; log_file_path := "result/log/run.log";
     log_train_path := "result/log/train.log"; model_path := "result/model";
     result_path := "result"; confusion_matrix_path := "result/cm";
     detection_rate_path := "result/dr" |}.

Definition to_bool (s : string) : option bool :=
  if bool_decide (s = "true") then Some true
  else if bool_decide (s = "false") then Some false
  else None.

(** The single parameter of the classifier: its decision threshold. *)
Definition threshold (m : StateDict) : Q := hd 0%Q m.

(** The epoch a parameter vector belongs to: every epoch raises the
    threshold by one, starting from zero. *)
Definition epoch_of (m : StateDict) : nat := Z.to_nat (Qnum (threshold m)).

(** A node is labelled 1 when its feature reaches the threshold. *)
Definition classify (m : StateDict) (row : list Q) : Z :=
  if Qle_bool (threshold m) (hd 0%Q row) then 1 else 0.

Definition count_equal (y_true y_pred : list Z) : nat :=
  length (filter (λ p, p.1 = p.2) (zip y_true y_pred)).

Definition accuracy (y_true y_pred : list Z) : Q :=
  Z.of_nat (count_equal y_true y_pred) # Pos.of_nat (length y_true).

(** Collaborators whose validation loss at epoch [k] is the [k]-th entry
    of [table] (and one beyond its end). *)
Definition collaborators (table : list Q) : Collaborators :=
  {| SEPARATOR := "----";
     MAPPING := classes;
     get_path_of_all := λ _ _ _ _ _, paths;
     str2bool := to_bool;
     build_graph := λ _, graph10;
     init_parameters := λ _ g, ([0%Q], N.succ g);
     fit_epoch := λ m opt _ _ _ g, ([(threshold m + 1)%Q], opt, N.succ g);
     validation_loss := λ m _ _ _ g, (nth (epoch_of m - 1) table 1%Q, N.succ g);
     predict := λ m l _ g,
       ((data_y (ld_data l), classify m <$> data_x (ld_data l)), N.succ g);
     accuracy_score := accuracy;
     balanced_accuracy_score := accuracy;
     classification_report := λ _ _, "report";
     confusion_matrix_true := λ _ _, [];
     recall_score_none := λ _ _, [] |}.

(** Validation improves up to epoch 9 and never again. *)
Definition E : Collaborators :=
  collaborators [0.8; 0.7; 0.6; 0.5; 0.4; 0.3; 0.2; 0.1; 0]%Q.

(** The validation losses of the spec's scenario 3. *)
Definition E3 : Collaborators :=
  collaborators [1.0; 0.9; 0.95; 0.96; 0.97]%Q.

(** A machine with no checkpoint on disk. *)
Definition w0 : World := {| files := ∅; rng := 0%N; cuda_is_available := false |}.

(** The same machine once a run has left its checkpoint. *)
Definition w1 : World :=
  {| files := {[ "result/model/gc_model_test_attack_0_hid_2048_convs_16_aug.h5"
                 := [9%Q] ]};
     rng := 60%N; cuda_is_available := false |}.

(** A namespace in which [proto_type] is bound. *)
Definition globals_with_proto_type : gmap string Binding :=
  <["proto_type" := BStr "tcp"]> (main_globals E).

(** The run of the pipeline on the empty machine, and its [train] call. *)
Definition first_run : World * list Event * Py.res unit :=
  node_classification E "dataset" 0 true 2048 16 w0.

(** The arguments of a [train] call with [max_epochs = 5] and
    [patience = 2] (scenario 3). *)
Definition train_args3 : TrainArgs :=
  {| ta_model := [0%Q]; ta_train_loader := mkLoader graph10 1 true;
     ta_criterion := CrossEntropyLoss (compute_class_weight (data_y graph10));
     ta_criterion_val := CrossEntropyLoss (compute_class_weight (data_y graph10));
     ta_optimizer := Adadelta [0%Q]; ta_device := cpu;
     ta_model_path := "result/model"; ta_logger := "training";
     ta_epochs := 5; ta_model_name := "scenario3"; ta_evaluation := true;
     ta_val_dataloader := mkLoader graph10 1 true; ta_patience := 2 |}.

Definition first_train_call : TrainArgs :=
  default train_args3 (head (train_calls (trace_of first_run))).

End Scenario.

(** The option strings present on a command line of option/value pairs. *)
Fixpoint options_given (argv : list string) : list string :=
  match argv with
  | opt :: _ :: rest => opt :: options_given rest
  | _ => []
  end.

(** The events of a trace that precede the first [train] call. *)
Fixpoint before_train (t : list Event) : list Event :=
  match t with
  | [] => []
  | Train _ :: _ => []
  | e :: t' => e :: before_train t'
  end.

(** ** Further helpers *)

(** No path separator occurs in [s]. *)
Fixpoint no_slash (s : string) : bool :=
  match s with
  | EmptyString => true
  | String c s' => negb (bool_decide (c = "/"%char)) && no_slash s'
  end.

(** What [os.path.join] puts in front of a relative last component:
    nothing, or text that ends with the separator. *)
Definition dir_prefix (s : string) : bool :=
  bool_decide (s = "") || Py.endswith_sep s.

(** [s.endswith(t)] *)
Fixpoint ends_with (s t : string) : bool :=
  if bool_decide (s = t) then true
  else match s with
       | EmptyString => false
       | String _ s' => ends_with s' t
       end.

(** The arguments of the [predict] calls of a trace. *)
Definition predict_calls (t : list Event) : list (StateDict * Loader * Device) :=
  omap (λ e, match e with Predict m l d => Some (m, l, d) | _ => None end) t.

(** A split in which every node has the same label. *)
Module OneClass.

Definition graph3 : Data :=
  {| data_x := [[0]; [1]; [2]]%Q;
     data_edge_index := [(0, 1)]%nat;
     data_y := [0; 0; 0] |}.

(** The collaborators of the scenario, with a builder that returns the
    one-class graph for every split. *)
Definition E : Collaborators :=
  {| SEPARATOR := SEPARATOR Scenario.E;
     MAPPING := MAPPING Scenario.E;
     get_path_of_all := get_path_of_all Scenario.E;
     str2bool := str2bool Scenario.E;
     build_graph := λ _, graph3;
     init_parameters := init_parameters Scenario.E;
     fit_epoch := fit_epoch Scenario.E;
     validation_loss := validation_loss Scenario.E;
     predict := predict Scenario.E;
     accuracy_score := accuracy_score Scenario.E;
     balanced_accuracy_score := balanced_accuracy_score Scenario.E;
     classification_report := classification_report Scenario.E;
     confusion_matrix_true := confusion_matrix_true Scenario.E;
     recall_score_none := recall_score_none Scenario.E |}.

End OneClass.

(** ** The entry point, after parsing *)

(** Line 197 of [main.py] for the parsed arguments [args], whatever command
    line [parse_args()] obtained them from. *)
Definition run_script (E : Collaborators) (cwd : string) (args : Namespace)
    : M unit :=
  node_classification E (Py.path_join cwd "dataset")
    (args_neigh args) (args_aug args) (args_hid args) (args_n_convs args).

(** ** The training loop with its failure cases *)

Module Controller.

Import NcModel.

(** The two failures of the Training Loop Controller (spec, 4.4 and 7). *)
Inductive TrainError : Type := EmptyDatasetError | DivergedTrainingError.

(** How a training call ends: with a failure, in the machine state it was
    raised in, or with the result of the loop. *)
Inductive Result : Type :=
| Failed (e : TrainError) (w : World)
| Finished (r : LoopResult).

(** The train iterator yields no partition: the graph has no node. *)
Definition no_partitions (l : Loader) : bool :=
  Nat.eqb (num_nodes (ld_data l)) 0.

(** Modelled from the spec: the Training Loop Controller of section 4.4
    with its failure cases.  [non_finite model g] tells whether the epoch
    that starts from the parameters [model] with generator state [g] meets
    a non-finite loss (losses that are finite are rationals, see
    [validation_loss]).  The loop runs while the state is not STOPPED and
    epochs remain.  An epoch fails with [EmptyDatasetError] when the train
    iterator yields no partition and with [DivergedTrainingError] on a
    non-finite loss, before any update or checkpoint of that epoch.
    Otherwise it is the epoch of [NcModel.train_loop]: on [v < best-loss]
    the state becomes IMPROVING, the counter is reset and the parameters
    are persisted; else the counter is incremented and the state becomes
    STOPPED once the counter reaches [patience], STALLED before. *)
Fixpoint loop (E : Collaborators) (non_finite : StateDict → Rng → bool)
    (a : TrainArgs) (remaining : nat) (es : EarlyStop) (model : StateDict)
    (opt : Optimizer) (w : World) (hist : list EpochRecord) : Result :=
  match es_phase es, remaining with
  | STOPPED, _ => Finished (mkLoopResult es model opt w hist)
  | _, O => Finished (mkLoopResult (stopped es) model opt w hist)
  | _, S remaining' =>
      if no_partitions (ta_train_loader a) then Failed EmptyDatasetError w
      else if non_finite model (rng w) then Failed DivergedTrainingError w
      else
        let '(model1, opt1, g1) :=
          fit_epoch E model opt (ta_train_loader a) (ta_criterion a)
                    (ta_device a) (rng w) in
        if ta_evaluation a then
          let '(v, g2) :=
            validation_loss E model1 (ta_val_dataloader a) (ta_criterion_val a)
                            (ta_device a) g1 in
          let hist1 := mkEpochRecord v model1 :: hist in
          if improves v (es_best es) then
            loop E non_finite a remaining' (mkEarlyStop IMPROVING (Some v) 0)
              model1 opt1
              (set_files (<[checkpoint_path a := model1]> (files w)) (set_rng g2 w))
              hist1
          else
            let s := S (es_stall es) in
            loop E non_finite a remaining'
              (mkEarlyStop
                 (if (ta_patience a <=? Z.of_nat s)%Z then STOPPED else STALLED)
                 (es_best es) s)
              model1 opt1 (set_rng g2 w) hist1
        else
          loop E non_finite a remaining' es model1 opt1 (set_rng g1 w) hist
  end.

(** [train(...)] as the controller runs it: from the initial state, with
    room for [epochs] epochs. *)
Definition train (E : Collaborators) (non_finite : StateDict → Rng → bool)
    (a : TrainArgs) (w : World) : Result :=
  loop E non_finite a (Z.to_nat (ta_epochs a)) es_init (ta_model a)
       (ta_optimizer a) w [].

End Controller.
(** ** Facts about the rendering of integers *)

Section StrInt.

Lemma append_nil (t : string) : "" +:+ t = t.
Proof. reflexivity. Qed.

Lemma append_cons (c : ascii) (s t : string) :
  String c s +:+ t = String c (s +:+ t).
Proof. reflexivity. Qed.

Lemma all_numeric_app s t :
  Py.all_numeric (s +:+ t) = Py.all_numeric s && Py.all_numeric t.
Proof.
  induction s as [|c s IH]; rewrite ?append_nil, ?append_cons; simpl; [done|].
  rewrite IH. by rewrite andb_assoc.
Qed.

Lemma pretty_N_char_numeric d : Py.numeric_char (pretty_N_char d) = true.
Proof.
  unfold pretty_N_char. repeat case_match; reflexivity.
Qed.

Lemma pretty_N_go_numeric x s :
  Py.all_numeric s = true → Py.all_numeric (pretty_N_go x s) = true.
Proof.
  revert s. induction (N.lt_wf_0 x) as [x _ IH]; intros s Hs.
  destruct (decide (x = 0)%N) as [->|Hx].
  - by rewrite pretty_N_go_0.
  - rewrite pretty_N_go_step by lia.
    apply IH; [apply N.div_lt; lia|].
    simpl. by rewrite pretty_N_char_numeric, Hs.
Qed.

Lemma pretty_N_numeric (x : N) : Py.all_numeric (pretty x) = true.
Proof.
  unfold pretty, pretty_N. case_decide; [done|].
  by apply pretty_N_go_numeric.
Qed.

Lemma str_int_numeric (i : Z) : Py.all_numeric (Py.str_int i) = true.
Proof.
  unfold Py.str_int, pretty, pretty_Z. destruct i as [|p|p]; [done|..].
  - apply pretty_N_numeric.
  - rewrite all_numeric_app. apply pretty_N_numeric.
Qed.

(** A numeric field followed by text that does not continue the number is
    parsed back unambiguously. *)
Lemma numeric_field_split s1 s2 t1 t2 :
  Py.all_numeric s1 = true → Py.all_numeric s2 = true →
  Py.stops_number t1 = true → Py.stops_number t2 = true →
  s1 +:+ t1 = s2 +:+ t2 → s1 = s2 ∧ t1 = t2.
Proof.
  revert s2. induction s1 as [|c s1 IH]; intros [|d s2] H1 H2 Ht1 Ht2 Heq;
    rewrite ?append_nil, ?append_cons in Heq; simpl in *.
  - done.
  - subst t1. simpl in Ht1.
    apply andb_prop in H2 as [Hd _]. by rewrite Hd in Ht1.
  - subst t2. simpl in Ht2.
    apply andb_prop in H1 as [Hc _]. by rewrite Hc in Ht2.
  - apply andb_prop in H1 as [_ H1]. apply andb_prop in H2 as [_ H2].
    injection Heq as -> Heq.
    destruct (IH s2 H1 H2 Ht1 Ht2 Heq) as [-> ->]. done.
Qed.

End StrInt.

(** C5: the checkpoint name is a function of the four run parameters, and
    two runs get the same name exactly when their parameter tuples are
    equal: distinct tuples give distinct checkpoint names. *)
Theorem model_name_eq_iff (n1 h1 c1 n2 h2 c2 : Z) (a1 a2 : bool) :
  model_name n1 h1 c1 a1 = model_name n2 h2 c2 a2
  ↔ (n1, h1, c1, a1) = (n2, h2, c2, a2).
Proof.
  split; [|by intros [= -> -> -> ->]].
  unfold model_name. intros Heq.
  apply (inj (String.app "gc_model_test_attack_")) in Heq.
  apply numeric_field_split in Heq as [Hn Heq];
    [|apply str_int_numeric..|done|done].
  apply (inj (String.app "_hid_")) in Heq.
  apply numeric_field_split in Heq as [Hh Heq];
    [|apply str_int_numeric..|done|done].
  apply (inj (String.app "_convs_")) in Heq.
  apply numeric_field_split in Heq as [Hc Ha];
    [|apply str_int_numeric..|by destruct a1|by destruct a2].
  apply (inj Py.str_int) in Hn, Hh, Hc. subst.
  destruct a1, a2; done.
Qed.


(** ** Running the pipeline symbolically *)

Arguments NcModel.run_train : simpl never.
Arguments Py.path_join : simpl never.
Arguments model_name : simpl never.
Arguments model_trained_path : simpl never.
Arguments compute_class_weight : simpl never.
Arguments main_globals : simpl never.

Ltac unfold_run :=
  unfold node_classification_in, trace_of, outcome_of, world_of;
  unfold mbind, M_bind, mret, M_ret, emit, with_rng, get_world, load_global,
    raise, NcModel.train;
  simpl.

(** Case analysis on the two decisions a run takes: whether the checkpoint
    file is there, and whether [proto_type] resolves. *)
Ltac run_cases G w :=
  unfold_run;
  let Hf := fresh "Hfile" in
  let Hg := fresh "Hname" in
  destruct (files w !! _) eqn:Hf; simpl;
  destruct (G !! "proto_type") eqn:Hg; simpl.

Lemma main_globals_proto_type (E : Collaborators) :
  main_globals E !! "proto_type" = None.
Proof. vm_compute. reflexivity. Qed.

Ltac run_main_cases E w :=
  unfold node_classification;
  let G := fresh "G" in
  let Hg := fresh "Hname" in
  generalize (main_globals_proto_type E); generalize (main_globals E);
  intros G Hg;
  unfold_run;
  let Hf := fresh "Hfile" in
  destruct (files w !! _) eqn:Hf; simpl;
  rewrite Hg; simpl.

(** Membership of an event in an explicit trace. *)
Ltac in_trace := simpl; repeat (first [left; reflexivity | right]).

(** C1: the train function is invoked exactly when no checkpoint file named
    after [model_name] exists in the model directory; when the file exists
    its parameters are loaded, they are the ones evaluated, and no training
    takes place.  Nothing else enters the decision. *)
Theorem checkpoint_decides_training (E : Collaborators) (dataset_path : string)
    (n_neigh : Z) (augmentation : bool) (hid num_convs : Z) (w : World) :
  let P := get_path_of_all E NAME_DIR n_neigh hid num_convs augmentation in
  let path :=
    model_trained_path (model_path P) (model_name n_neigh hid num_convs augmentation) in
  let t := trace_of (node_classification E dataset_path n_neigh augmentation
                       hid num_convs w) in
  ((∃ a, In (Train a) t) ↔ files w !! path = None) ∧
  (length (train_calls t) ≤ 1)%nat ∧
  (files w !! path = None → ∀ p sd, ¬ In (LoadStateDict p sd) t) ∧
  (∀ stored, files w !! path = Some stored →
     train_calls t = [] ∧ In (LoadStateDict path stored) t ∧
     models_evaluated t = [stored]).
Proof.
  intros P path t. subst t path P.
  run_main_cases E w.
  - split; [|split; [|split]].
    + split; [|discriminate].
      intros [a Ha]. exfalso. intuition discriminate.
    + lia.
    + discriminate.
    + intros stored [= <-]. split; [reflexivity|]. split; [in_trace|reflexivity].
  - split; [|split; [|split]].
    + split; [reflexivity|]. intros _. eexists. in_trace.
    + lia.
    + intros _ p sd Hin. intuition discriminate.
    + discriminate.
Qed.

(** C2: every invocation runs up to the logging of the metrics and then
    fails on the undefined name [proto_type] while building [image_name]:
    the outcome is a [NameError] and neither plot is produced. *)
Theorem plotting_raises_name_error (E : Collaborators) (dataset_path : string)
    (n_neigh : Z) (augmentation : bool) (hid num_convs : Z) (w : World) :
  let r := node_classification E dataset_path n_neigh augmentation hid num_convs w in
  outcome_of r = Py.Raised (Py.NameError "proto_type") ∧
  (∃ report, last (trace_of r) = Some (LogInfo "logger" (TextReport report))) ∧
  plot_labels (trace_of r) = [] ∧
  (∀ cm labels path, ¬ In (PlotConfusionMatrix cm labels path) (trace_of r)) ∧
  (∀ labels recall path, ¬ In (PlotRecall labels recall path) (trace_of r)).
Proof.
  intros r. subst r.
  run_main_cases E w.
  - split; [reflexivity|]. split; [eexists; reflexivity|].
    split; [reflexivity|]. split; intros ? ? ? Hin; intuition discriminate.
  - split; [reflexivity|]. split; [eexists; reflexivity|].
    split; [reflexivity|]. split; intros ? ? ? Hin; intuition discriminate.
Qed.

(** C4: on every run the model is built with [num_classes=2], the logger
    reports "Number of classes: 10", and every label list handed to the
    confusion-matrix and recall plots is [MAPPING.keys()] (ten entries when
    [MAPPING] has ten); when [proto_type] resolves, both plots receive it. *)
Theorem binary_model_ten_class_reporting (G : gmap string Binding)
    (E : Collaborators) (dataset_path : string) (n_neigh : Z)
    (augmentation : bool) (hid num_convs : Z) (w : World) :
  let t := trace_of (node_classification_in G E dataset_path n_neigh
                       augmentation hid num_convs w) in
  ma_num_classes <$> models_made t = [2] ∧
  In (LogInfo "logger" (Text "Number of classes: 10")) t ∧
  Forall (λ labels, labels = MAPPING_keys E) (plot_labels t) ∧
  (is_Some (G !! "proto_type") →
     plot_labels t = [MAPPING_keys E; MAPPING_keys E]) ∧
  (length (MAPPING E) = 10%nat →
     Forall (λ labels, length labels = 10%nat) (plot_labels t)).
Proof.
  intros t. subst t.
  assert (Hlen : length (MAPPING E) = 10%nat → length (MAPPING_keys E) = 10%nat).
  { intros H. unfold MAPPING_keys. by rewrite length_fmap. }
  run_cases G w.
  - split; [reflexivity|]. split; [in_trace|]. split; [by repeat constructor|].
    split; [reflexivity|]. intros H. repeat constructor; auto.
  - split; [reflexivity|]. split; [in_trace|]. split; [by constructor|].
    split; [by intros [? ?]|]. intros _. constructor.
  - split; [reflexivity|]. split; [in_trace|]. split; [by repeat constructor|].
    split; [reflexivity|]. intros H. repeat constructor; auto.
  - split; [reflexivity|]. split; [in_trace|]. split; [by constructor|].
    split; [by intros [? ?]|]. intros _. constructor.
Qed.

Lemma val_test_datasets_built (E : Collaborators) (dataset_path : string)
    (n_neigh : Z) (augmentation : bool) (hid num_convs : Z) (w : World) :
  datasets_built E is_val_or_test
    (trace_of (node_classification E dataset_path n_neigh augmentation
                 hid num_convs w))
  = [(val_dataset_args dataset_path n_neigh,
      build_graph E (val_dataset_args dataset_path n_neigh));
     (test_dataset_args dataset_path n_neigh,
      build_graph E (test_dataset_args dataset_path n_neigh))].
Proof. run_main_cases E w; reflexivity. Qed.

Lemma train_dataset_built (E : Collaborators) (dataset_path : string)
    (n_neigh : Z) (augmentation : bool) (hid num_convs : Z) (w : World) :
  datasets_built E (λ a, negb (is_val_or_test a))
    (trace_of (node_classification E dataset_path n_neigh augmentation
                 hid num_convs w))
  = [(train_dataset_args dataset_path n_neigh augmentation,
      build_graph E (train_dataset_args dataset_path n_neigh augmentation))].
Proof. run_main_cases E w; reflexivity. Qed.

(** C6: the augmentation flag reaches the train dataset only.  The val and
    test builders are called without an [augmentation] argument, so two runs
    that differ only in the flag build identical val and test datasets. *)
Theorem augmentation_only_reaches_train_dataset (E : Collaborators)
    (dataset_path : string) (n_neigh hid num_convs : Z) (w : World) :
  let run := λ augmentation,
    trace_of (node_classification E dataset_path n_neigh augmentation
                hid num_convs w) in
  datasets_built E is_val_or_test (run true)
    = datasets_built E is_val_or_test (run false) ∧
  Forall (λ d, ds_augmentation d.1 = None)
    (datasets_built E is_val_or_test (run true)) ∧
  length (datasets_built E is_val_or_test (run true)) = 2%nat ∧
  (∀ augmentation,
     (λ d, ds_augmentation d.1)
       <$> datasets_built E (λ a, negb (is_val_or_test a)) (run augmentation)
     = [Some augmentation]).
Proof.
  intros run. subst run. cbv beta.
  rewrite !val_test_datasets_built.
  split; [reflexivity|]. split; [by repeat constructor|]. split; [reflexivity|].
  intros augmentation. by rewrite train_dataset_built.
Qed.

Lemma model_and_schedule_constants (E : Collaborators) (dataset_path : string)
    (n_neigh : Z) (augmentation : bool) (hid num_convs : Z) (w : World) :
  let t := trace_of (node_classification E dataset_path n_neigh augmentation
                       hid num_convs w) in
  length (models_made t) = 1%nat ∧
  Forall (λ a, ma_alpha a = 0.5%Q ∧ ma_theta a = 0.7%Q ∧ ma_dropout a = 0.5%Q)
    (models_made t) ∧
  Forall (λ a, ta_epochs a = 1000 ∧ ta_patience a = 20) (train_calls t).
Proof.
  intros t. subst t.
  run_main_cases E w; (split; [reflexivity|]; split; by repeat constructor).
Qed.

(** ** Class weights *)

Section ClassWeights.

Lemma np_unique_elem (y : list Z) (c : Z) : c ∈ np_unique y ↔ c ∈ y.
Proof.
  unfold np_unique. rewrite merge_sort_Permutation. apply elem_of_remove_dups.
Qed.

Lemma bincount_pos (y : list Z) (c : Z) : c ∈ y → (0 < bincount y c)%nat.
Proof.
  intros Hc. apply list_elem_of_In in Hc.
  apply (count_occ_In Z.eq_dec) in Hc. unfold bincount. lia.
Qed.

Lemma np_unique_nonempty (y : list Z) (c : Z) :
  c ∈ y → (0 < length (np_unique y))%nat.
Proof.
  intros Hc. apply np_unique_elem in Hc.
  destruct (np_unique y); [by apply elem_of_nil in Hc|simpl; lia].
Qed.

(** The weight as a single fraction. *)
Lemma balanced_weight_fraction (y : list Z) (c : Z) :
  c ∈ y →
  balanced_weight y c ==
    Z.of_nat (length y)
    # Z.to_pos (Z.of_nat (length (np_unique y)) * Z.of_nat (bincount y c)).
Proof.
  intros Hc. pose proof (bincount_pos y c Hc). pose proof (np_unique_nonempty y c Hc).
  unfold balanced_weight, Qdiv, Qmult, Qinv, inject_Z, Qeq. simpl.
  destruct (Z.of_nat (length (np_unique y)) * Z.of_nat (bincount y c))%Z
    as [|p|p] eqn:Hk; [lia| |lia].
  simpl. lia.
Qed.

(** Inverse proportionality: weight times frequency is the same for every
    class of the split. *)
Lemma balanced_weight_inverse (y : list Z) (c : Z) :
  c ∈ y →
  balanced_weight y c * inject_Z (Z.of_nat (bincount y c))
    == inject_Z (Z.of_nat (length y)) / inject_Z (Z.of_nat (length (np_unique y))).
Proof.
  intros Hc. pose proof (bincount_pos y c Hc). pose proof (np_unique_nonempty y c Hc).
  unfold balanced_weight. field. split.
  - intros Heq. unfold Qeq, inject_Z in Heq. simpl in Heq. lia.
  - intros Heq. unfold Qeq, inject_Z in Heq. simpl in Heq. lia.
Qed.

Lemma balanced_weight_minority (y : list Z) (c1 c2 : Z) :
  c1 ∈ y → c2 ∈ y → (bincount y c1 < bincount y c2)%nat →
  (balanced_weight y c2 < balanced_weight y c1)%Q.
Proof.
  intros H1 H2 Hlt.
  rewrite (balanced_weight_fraction y c1 H1), (balanced_weight_fraction y c2 H2).
  pose proof (bincount_pos y c1 H1). pose proof (np_unique_nonempty y c1 H1).
  assert (0 < length y)%nat by (destruct y; [by apply elem_of_nil in H1|simpl; lia]).
  unfold Qlt. simpl. rewrite !Z2Pos.id by nia. nia.
Qed.

Lemma compute_class_weight_lookup (y : list Z) (i : nat) (c : Z) :
  np_unique y !! i = Some c →
  compute_class_weight y !! i = Some (balanced_weight y c).
Proof.
  intros Hi. unfold compute_class_weight. by rewrite list_lookup_fmap, Hi.
Qed.

End ClassWeights.

Lemma criteria_of_the_run (E : Collaborators) (dataset_path : string)
    (n_neigh : Z) (augmentation : bool) (hid num_convs : Z) (w : World) :
  let t := trace_of (node_classification E dataset_path n_neigh augmentation
                       hid num_convs w) in
  let y := data_y (build_graph E (train_dataset_args dataset_path n_neigh augmentation)) in
  let y_val := data_y (build_graph E (val_dataset_args dataset_path n_neigh)) in
  let made := [CrossEntropyLoss (compute_class_weight y);
               CrossEntropyLoss (compute_class_weight y_val)] in
  criteria_made t = made ∧
  criteria_made (before_train t) = made ∧
  Forall (λ a, ta_criterion a = CrossEntropyLoss (compute_class_weight y) ∧
               ta_criterion_val a = CrossEntropyLoss (compute_class_weight y_val))
    (train_calls t).
Proof.
  intros t y y_val made. subst t y y_val made.
  run_main_cases E w; (split; [reflexivity|]; split; [reflexivity|]);
    by repeat constructor.
Qed.

(** ** The node partition loader *)

Section Partition.

Import NodeLoader.

Lemma batches_concat (fuel b : nat) (order : list nat) :
  (0 < b)%nat → (length order ≤ fuel)%nat →
  concat (batches fuel b order) = order.
Proof.
  intros Hb. revert order.
  induction fuel as [|fuel IH]; intros order Hlen.
  - destruct order; [done|simpl in Hlen; lia].
  - destruct order as [|x order]; [done|].
    cbn [batches concat]. rewrite IH.
    + apply take_drop.
    + rewrite length_drop. simpl in *. lia.
Qed.

Lemma batches_nonempty (fuel b : nat) (order : list nat) :
  (0 < b)%nat → Forall (λ batch, batch ≠ []) (batches fuel b order).
Proof.
  intros Hb. revert order.
  induction fuel as [|fuel IH]; intros order; [constructor|].
  destruct order as [|x order]; [constructor|].
  cbn [batches]. constructor; [|apply IH].
  destruct b; [lia|discriminate].
Qed.

Lemma batches_count (fuel b : nat) (order : list nat) :
  (0 < b)%nat → (length order ≤ fuel)%nat →
  (length (batches fuel b order) * b < length order + b)%nat.
Proof.
  intros Hb. revert order.
  induction fuel as [|fuel IH]; intros order Hlen; [simpl; lia|].
  destruct order as [|x order]; [simpl; lia|].
  cbn [batches length].
  assert (Hdrop : (length (drop b (x :: order)) ≤ fuel)%nat).
  { rewrite length_drop. simpl in *. lia. }
  specialize (IH _ Hdrop). rewrite length_drop in IH. simpl in *.
  destruct (decide (b ≤ S (length order))%nat); [lia|].
  assert (Hnil : drop b (x :: order) = []).
  { apply drop_ge. simpl. lia. }
  rewrite Hnil. destruct fuel; simpl; lia.
Qed.

Lemma batches_cover (fuel b : nat) (order : list nat) :
  (0 < b)%nat → (length order ≤ fuel)%nat →
  (length order ≤ length (batches fuel b order) * b)%nat.
Proof.
  intros Hb. revert order.
  induction fuel as [|fuel IH]; intros order Hlen; [simpl in *; lia|].
  destruct order as [|x order]; [simpl; lia|].
  cbn [batches length].
  assert (Hdrop : (length (drop b (x :: order)) ≤ fuel)%nat).
  { rewrite length_drop. simpl in *. lia. }
  specialize (IH _ Hdrop). rewrite length_drop in IH. simpl in *. lia.
Qed.

Lemma part_nodes_subgraph (d : Data) (bs : list (list nat)) :
  part_nodes <$> (subgraph d <$> bs) = bs.
Proof.
  induction bs as [|b bs IH]; [done|]. csimpl. by rewrite IH.
Qed.

Lemma batch_size_64 (d : Data) (shuffle : bool) :
  (0 < num_nodes d)%nat →
  (0 < batch_size (mkLoader d 64 shuffle))%nat ∧
  (num_nodes d ≤ 64 * batch_size (mkLoader d 64 shuffle))%nat ∧
  (64 * batch_size (mkLoader d 64 shuffle) < num_nodes d + 64)%nat.
Proof.
  intros Hn. unfold batch_size. simpl.
  set (n := Z.of_nat (num_nodes d)).
  assert (0 < n) by (subst n; lia).
  assert (1 ≤ (n + 64 - 1) / 64) by (apply Z.div_le_lower_bound; lia).
  assert (n ≤ 64 * ((n + 64 - 1) / 64)).
  { pose proof (Z.mul_succ_div_gt (n + 64 - 1) 64 ltac:(lia)). lia. }
  assert (64 * ((n + 64 - 1) / 64) ≤ n + 64 - 1)
    by (apply Z.mul_div_le; lia).
  subst n. lia.
Qed.

(** One traversal of a 64-part shuffling loader, for the permutation the
    sampler drew: the parts follow the drawn order, so every node is in
    exactly one part; there are at most 64 parts (exactly 64 once the graph
    has more than 3969 nodes), none of them empty, and each part keeps
    exactly the edges with both endpoints inside it. *)
Lemma iterate_partition (d : Data) (perm : list nat) :
  perm ≡ₚ seq 0 (num_nodes d) →
  let parts := iterate (mkLoader d 64 true) perm in
  concat (part_nodes <$> parts) = perm ∧
  concat (part_nodes <$> parts) ≡ₚ seq 0 (num_nodes d) ∧
  (length parts ≤ 64)%nat ∧
  ((3969 < num_nodes d)%nat → length parts = 64%nat) ∧
  Forall (λ p, part_nodes p ≠ [] ∧
               part_edges p
               = filter (λ e, e.1 ∈ part_nodes p ∧ e.2 ∈ part_nodes p)
                        (data_edge_index d)) parts.
Proof.
  intros Hperm parts.
  assert (Hlen : length perm = num_nodes d).
  { by rewrite Hperm, length_seq. }
  assert (Hnodes : concat (part_nodes <$> parts) = perm).
  { subst parts. unfold iterate. cbn [ld_data ld_shuffle].
    rewrite part_nodes_subgraph.
    destruct (decide (num_nodes d = 0)%nat) as [Hz|Hz].
    - rewrite Hz in *. by destruct perm.
    - apply batches_concat; [|lia].
      apply (batch_size_64 d true). lia. }
  split; [exact Hnodes|]. split; [by rewrite Hnodes|]. split; [|split].
  - subst parts. unfold iterate. cbn [ld_data ld_shuffle].
    rewrite length_fmap.
    destruct (decide (num_nodes d = 0)%nat) as [Hz|Hz].
    + rewrite Hz. simpl. lia.
    + destruct (batch_size_64 d true ltac:(lia)) as (Hb & Hn & _).
      pose proof (batches_count (num_nodes d) _ perm Hb ltac:(lia)) as Hc.
      rewrite Hlen in Hc. nia.
  - intros Hbig. subst parts. unfold iterate. cbn [ld_data ld_shuffle].
    rewrite length_fmap.
    destruct (batch_size_64 d true ltac:(lia)) as (Hb & Hn & Hup).
    pose proof (batches_count (num_nodes d) _ perm Hb ltac:(lia)) as Hc.
    pose proof (batches_cover (num_nodes d) _ perm Hb ltac:(lia)) as Hv.
    rewrite Hlen in Hc, Hv.
    set (b := batch_size (mkLoader d 64 true)) in *.
    set (k := length (batches (num_nodes d) b perm)) in *.
    assert (k ≤ 64)%nat by nia.
    destruct (decide (k = 64)%nat) as [|Hk]; [done|exfalso].
    assert (k ≤ 63)%nat by lia.
    assert (num_nodes d ≤ 63 * b)%nat by nia.
    assert (b ≤ 63)%nat by lia.
    nia.
  - subst parts. unfold iterate. cbn [ld_data ld_shuffle].
    apply Forall_fmap.
    destruct (decide (num_nodes d = 0)%nat) as [Hz|Hz].
    + rewrite Hz. constructor.
    + eapply Forall_impl;
        [apply batches_nonempty; apply (batch_size_64 d true); lia|].
      intros batch Hne. split; [exact Hne|reflexivity].
Qed.

End Partition.

Lemma loaders_of_the_run (E : Collaborators) (dataset_path : string)
    (n_neigh : Z) (augmentation : bool) (hid num_convs : Z) (w : World) :
  loaders_made (trace_of (node_classification E dataset_path n_neigh
                            augmentation hid num_convs w))
  = [mkLoader (build_graph E (train_dataset_args dataset_path n_neigh augmentation)) 64 true;
     mkLoader (build_graph E (val_dataset_args dataset_path n_neigh)) 64 true;
     mkLoader (build_graph E (test_dataset_args dataset_path n_neigh)) 64 true].
Proof. run_main_cases E w; reflexivity. Qed.

(** C9, as the code has it: each of the three split graphs is wrapped in a
    loader with [num_parts=64] and [shuffle=True]; every traversal of such a
    loader follows the permutation drawn for that traversal and cuts the
    graph's nodes into at most 64 non-empty node-induced parts (exactly 64
    once the graph has more than 3969 nodes), each node in exactly one of
    them. *)
Theorem three_shuffled_64_part_loaders (E : Collaborators)
    (dataset_path : string) (n_neigh : Z) (augmentation : bool)
    (hid num_convs : Z) (w : World) :
  let t := trace_of (node_classification E dataset_path n_neigh augmentation
                       hid num_convs w) in
  ld_data <$> loaders_made t
    = [build_graph E (train_dataset_args dataset_path n_neigh augmentation);
       build_graph E (val_dataset_args dataset_path n_neigh);
       build_graph E (test_dataset_args dataset_path n_neigh)] ∧
  (∀ l, l ∈ loaders_made t →
     ld_num_parts l = 64 ∧ ld_shuffle l = true ∧
     ∀ perm, perm ≡ₚ seq 0 (num_nodes (ld_data l)) →
       let parts := NodeLoader.iterate l perm in
       concat (NodeLoader.part_nodes <$> parts) = perm ∧
       concat (NodeLoader.part_nodes <$> parts) ≡ₚ seq 0 (num_nodes (ld_data l)) ∧
       (length parts ≤ 64)%nat ∧
       ((3969 < num_nodes (ld_data l))%nat → length parts = 64%nat) ∧
       Forall (λ p, NodeLoader.part_nodes p ≠ [] ∧
                    NodeLoader.part_edges p
                    = filter (λ e, e.1 ∈ NodeLoader.part_nodes p ∧
                                   e.2 ∈ NodeLoader.part_nodes p)
                             (data_edge_index (ld_data l))) parts).
Proof.
  intros t. subst t. rewrite loaders_of_the_run.
  split; [reflexivity|].
  intros l Hl.
  assert (Hshape : ∃ d, l = mkLoader d 64 true).
  { repeat (apply elem_of_cons in Hl as [->|Hl]; [by eexists|]).
    by apply elem_of_nil in Hl. }
  destruct Hshape as [d ->].
  split; [reflexivity|]. split; [reflexivity|].
  intros perm Hperm. by apply iterate_partition.
Qed.

(** ** The training loop *)

Section TrainLoop.

Import NcModel.

Variable E : Collaborators.
Variable a : TrainArgs.
Hypothesis evaluation_enabled : ta_evaluation a = true.
Hypothesis patience_positive : 1 ≤ ta_patience a.

Lemma improves_lt (v b : Q) : improves v (Some b) = true ↔ (v < b)%Q.
Proof.
  unfold improves. rewrite negb_true_iff, <-not_true_iff_false, Qle_bool_iff.
  split; [apply Qnot_le_lt|apply Qlt_not_le].
Qed.

Lemma best_epoch_elem (h : list EpochRecord) (best : EpochRecord) :
  best_epoch h best → best ∈ h.
Proof. intros (newer & older & -> & _). set_solver. Qed.

Lemma best_epoch_le (h : list EpochRecord) (best x : EpochRecord) :
  best_epoch h best → x ∈ h → (ep_val_loss best <= ep_val_loss x)%Q.
Proof.
  intros (newer & older & -> & Hold & Hnew) Hx.
  apply elem_of_app in Hx as [Hx|Hx]; [by apply Hnew|].
  apply elem_of_cons in Hx as [->|Hx]; [apply Qle_refl|].
  by apply Qlt_le_weak, Hold.
Qed.

Lemma best_epoch_improved (h : list EpochRecord) (best new : EpochRecord) :
  best_epoch h best → (ep_val_loss new < ep_val_loss best)%Q →
  best_epoch (new :: h) new.
Proof.
  intros Hbest Hlt. exists [], h. split; [done|]. split.
  - intros o Ho. eapply Qlt_le_trans; [exact Hlt|]. by eapply best_epoch_le.
  - intros x Hx. by apply elem_of_nil in Hx.
Qed.

Lemma best_epoch_kept (h : list EpochRecord) (best new : EpochRecord) :
  best_epoch h best → (ep_val_loss best <= ep_val_loss new)%Q →
  best_epoch (new :: h) best.
Proof.
  intros (newer & older & -> & Hold & Hnew) Hle.
  exists (new :: newer), older. split; [done|]. split; [done|].
  intros x Hx. apply elem_of_cons in Hx as [->|Hx]; [done|by apply Hnew].
Qed.

Lemma no_earlier_loss_below (h : list EpochRecord) (v : Q) :
  (∀ x, x ∈ h → (v < ep_val_loss x)%Q) →
  existsb (λ u, Qle_bool u v) (losses h) = false.
Proof.
  intros Hall. apply not_true_iff_false. intros Hex.
  apply existsb_exists in Hex as (u & Hu & Hle).
  apply Qle_bool_iff in Hle.
  apply list_elem_of_In, list_elem_of_fmap in Hu as (x & -> & Hx).
  by apply (Qlt_not_le _ _ (Hall x Hx)).
Qed.

Lemma earlier_loss_below (h : list EpochRecord) (best : EpochRecord) (v : Q) :
  best ∈ h → (ep_val_loss best <= v)%Q →
  existsb (λ u, Qle_bool u v) (losses h) = true.
Proof.
  intros Hin Hle. apply existsb_exists. exists (ep_val_loss best). split.
  - apply list_elem_of_In, list_elem_of_fmap. by exists best.
  - by apply Qle_bool_iff.
Qed.

Lemma trailing_stall_cons (new : EpochRecord) (hist : list EpochRecord) :
  trailing_stall (losses (new :: hist))
  = if existsb (λ u, Qle_bool u (ep_val_loss new)) (losses hist)
    then S (trailing_stall (losses hist)) else 0%nat.
Proof. reflexivity. Qed.

Lemma loop_inv_init (model : StateDict) (w : World) :
  loop_inv a es_init model w [].
Proof.
  split; [done| |done|done].
  intros newer older Heq. symmetry in Heq.
  apply app_eq_nil in Heq as [_ ->]. simpl. lia.
Qed.

Lemma loop_inv_step (es es' : EarlyStop) (model model' : StateDict)
    (w w' : World) (hist : list EpochRecord) (v : Q) :
  loop_inv a es model w hist →
  es_stall es' = trailing_stall (losses (mkEpochRecord v model' :: hist)) →
  Z.of_nat (es_stall es') < ta_patience a →
  (∃ best, best_epoch (mkEpochRecord v model' :: hist) best ∧
           es_best es' = Some (ep_val_loss best) ∧
           files w' !! checkpoint_path a = Some (ep_model best)) →
  loop_inv a es' model' w' (mkEpochRecord v model' :: hist).
Proof.
  intros Hinv Hstall Hlt (best & Hbest & Hes & Hfile). split.
  - exact Hstall.
  - intros [|x newer] older Heq; simplify_eq/=.
    + by rewrite <-Hstall.
    + by eapply (inv_patience Hinv).
  - rewrite Hes. by exists best.
  - by intros last [= <-].
Qed.

Lemma train_loop_post (remaining : nat) :
  ∀ es model opt w hist,
    loop_inv a es model w hist →
    loop_post a (length hist + remaining)
      (train_loop E a remaining es model opt w hist).
Proof.
  induction remaining as [|remaining IH]; intros es model opt w hist Hinv.
  - cbn [train_loop]. rewrite Nat.add_0_r.
    split; cbn [lr_state lr_history lr_model lr_world stopped es_phase es_best].
    + done.
    + done.
    + intros Hpos ->. simpl in Hpos. lia.
    + lia.
    + intros newer older Heq _. by eapply (inv_patience Hinv).
    + intros Hne. pose proof (inv_best Hinv) as Hbest.
      destruct (es_best es) as [b|]; [|done].
      destruct Hbest as (best & ? & -> & ?). by exists best.
    + apply (inv_model Hinv).
  - cbn [train_loop].
    destruct (fit_epoch E model opt _ _ _ _) as [[model1 opt1] g1].
    rewrite evaluation_enabled.
    destruct (validation_loss E model1 _ _ _ _) as [v g2].
    set (new := mkEpochRecord v model1).
    replace (length hist + S remaining)%nat
      with (length (new :: hist) + remaining)%nat by (simpl; lia).
    pose proof (inv_best Hinv) as Hbest.
    destruct (improves v (es_best es)) eqn:Himp.
    + (* the epoch improves on the best loss: checkpoint and go on *)
      apply IH. apply loop_inv_step with (es := es) (model := model) (w := w).
      * exact Hinv.
      * rewrite trailing_stall_cons.
        cbn [ep_val_loss new].
        rewrite (no_earlier_loss_below hist v); [done|].
        intros x Hx. destruct (es_best es) as [b|].
        -- destruct Hbest as (best & Hb & -> & _).
           apply improves_lt in Himp.
           eapply Qlt_le_trans; [exact Himp|]. by eapply best_epoch_le.
        -- subst hist. by apply elem_of_nil in Hx.
      * cbn [es_stall]. lia.
      * exists new. split; [|split].
        -- destruct (es_best es) as [b|].
           ++ destruct Hbest as (best & Hb & -> & _).
              apply best_epoch_improved with (best := best); [done|].
              by apply improves_lt.
           ++ subst hist. exists [], []. split; [done|].
              split; intros ? Hx; by apply elem_of_nil in Hx.
        -- done.
        -- cbn [files set_files]. apply lookup_insert_eq.
    + (* no improvement *)
      destruct (es_best es) as [b|] eqn:Hes; [|discriminate].
      destruct Hbest as (best & Hb & -> & Hfile).
      assert (Hle : (ep_val_loss best <= v)%Q).
      { apply Qnot_lt_le. intros Hlt. apply improves_lt in Hlt. congruence. }
      assert (Hstall : trailing_stall (losses (new :: hist))
                       = S (es_stall es)).
      { rewrite trailing_stall_cons.
        cbn [ep_val_loss new].
        rewrite (earlier_loss_below hist best v);
          [|by eapply best_epoch_elem|done].
        f_equal. symmetry. apply (inv_stall Hinv). }
      assert (Hkept : best_epoch (new :: hist) best)
        by (by apply best_epoch_kept).
      destruct (ta_patience a <=? Z.of_nat (S (es_stall es))) eqn:Hpat.
      * (* the stall counter reached the patience: stop *)
        apply Z.leb_le in Hpat.
        pose proof (inv_patience Hinv [] hist eq_refl) as Hbelow.
        rewrite <-(inv_stall Hinv) in Hbelow.
        split; cbn [lr_state lr_history lr_model lr_world es_phase es_best].
        -- done.
        -- lia.
        -- done.
        -- intros _. rewrite Hstall. lia.
        -- intros [|x newer] older Heq Hne; [done|]. simplify_eq/=.
           by eapply (inv_patience Hinv).
        -- intros _. by exists best.
        -- by intros last [= <-].
      * apply Z.leb_gt in Hpat.
        apply IH. apply loop_inv_step with (es := es) (model := model) (w := w).
        -- exact Hinv.
        -- symmetry. exact Hstall.
        -- cbn [es_stall]. lia.
        -- by exists best.
Qed.

(** The loop as [train] starts it: from the initial state, with room for
    [epochs] epochs. *)
Lemma run_train_post (w : World) :
  loop_post a (Z.to_nat (ta_epochs a)) (run_train E a w).
Proof.
  unfold run_train.
  apply (train_loop_post (Z.to_nat (ta_epochs a)) es_init (ta_model a)
           (ta_optimizer a) w []).
  apply loop_inv_init.
Qed.

End TrainLoop.

(** ** The training call of the pipeline *)

Lemma train_call_shape (E : Collaborators) (dataset_path : string)
    (n_neigh : Z) (augmentation : bool) (hid num_convs : Z) (w : World)
    (a : TrainArgs) :
  In (Train a) (trace_of (node_classification E dataset_path n_neigh
                            augmentation hid num_convs w)) →
  ta_evaluation a = true ∧ ta_patience a = 20 ∧ ta_epochs a = 1000 ∧
  NcModel.checkpoint_path a
  = model_trained_path
      (model_path (get_path_of_all E NAME_DIR n_neigh hid num_convs augmentation))
      (model_name n_neigh hid num_convs augmentation).
Proof.
  run_main_cases E w; intros Hin;
    repeat (destruct Hin as [Hin|Hin];
            [first [discriminate Hin
                   |injection Hin as <-; repeat split; reflexivity]|]);
    contradiction.
Qed.

(** ** The scenario, run *)

(** The spec's scenario 3: with five epochs at most, patience 2 and the
    validation losses 1.0, 0.9, 0.95, 0.96, 0.97, training stops after
    epoch 4; the checkpoint holds the parameters of epoch 2, the model in
    memory those of epoch 4. *)
Example scenario3_stops_after_epoch_4 :
  let r := NcModel.run_train Scenario.E3 Scenario.train_args3 Scenario.w0 in
  length (NcModel.lr_history r) = 4%nat ∧
  files (NcModel.lr_world r) !! "result/model/scenario3.h5" = Some [2%Q] ∧
  NcModel.lr_model r = [4%Q] ∧
  NcModel.es_phase (NcModel.lr_state r) = NcModel.STOPPED.
Proof. vm_compute. repeat split; reflexivity. Qed.

Lemma checkpoint_decides_training_witness :
  (∃ a, In (Train a) (trace_of Scenario.first_run)) ∧
  train_calls (trace_of (node_classification Scenario.E "dataset" 0 true 2048
                           16 Scenario.w1)) = [].
Proof.
  split.
  - apply (checkpoint_decides_training Scenario.E "dataset" 0 true 2048 16
             Scenario.w0).
    vm_compute. reflexivity.
  - apply (checkpoint_decides_training Scenario.E "dataset" 0 true 2048 16
             Scenario.w1) with (stored := [9%Q]).
    vm_compute. reflexivity.
Defined.

Lemma binary_model_ten_class_witness :
  plot_labels (trace_of (node_classification_in Scenario.globals_with_proto_type
                           Scenario.E "dataset" 0 true 2048 16 Scenario.w0))
  = [MAPPING_keys Scenario.E; MAPPING_keys Scenario.E] ∧
  Forall (λ labels, length labels = 10%nat)
    (plot_labels (trace_of (node_classification_in
                              Scenario.globals_with_proto_type
                              Scenario.E "dataset" 0 true 2048 16 Scenario.w0))).
Proof.
  split.
  - apply (binary_model_ten_class_reporting Scenario.globals_with_proto_type
             Scenario.E "dataset" 0 true 2048 16 Scenario.w0).
    vm_compute. eexists. reflexivity.
  - apply (binary_model_ten_class_reporting Scenario.globals_with_proto_type
             Scenario.E "dataset" 0 true 2048 16 Scenario.w0).
    reflexivity.
Defined.

Lemma three_shuffled_64_part_loaders_witness :
  let l := mkLoader Scenario.graph10 64 true in
  let perm := [9; 8; 7; 6; 5; 4; 3; 2; 1; 0]%nat in
  perm ≡ₚ seq 0 (num_nodes (ld_data l)) ∧
  concat (NodeLoader.part_nodes <$> NodeLoader.iterate l perm) = perm ∧
  (length (NodeLoader.iterate l perm) ≤ 64)%nat.
Proof.
  intros l perm.
  assert (Hperm : perm ≡ₚ seq 0 (num_nodes (ld_data l))).
  { change (reverse (seq 0 10) ≡ₚ seq 0 10). apply reverse_Permutation. }
  split; [exact Hperm|].
  destruct (three_shuffled_64_part_loaders Scenario.E "dataset" 0 true 2048 16
              Scenario.w0) as [_ Hall].
  destruct (Hall l) as (_ & _ & Hparts).
  { vm_compute. left. }
  destruct (Hparts perm Hperm) as (Hconcat & _ & Hcount & _ & _).
  split; [exact Hconcat|exact Hcount].
Defined.

(** The claim C9 as stated fails on the ten-node graph: the loader the run
    builds over it, asked for 64 parts, yields ten parts of one node. *)
Lemma ten_nodes_give_ten_parts :
  let l := mkLoader Scenario.graph10 64 true in
  let perm := [9; 8; 7; 6; 5; 4; 3; 2; 1; 0]%nat in
  l ∈ loaders_made (trace_of Scenario.first_run) ∧
  ld_num_parts l = 64 ∧ ld_shuffle l = true ∧
  perm ≡ₚ seq 0 (num_nodes (ld_data l)) ∧
  length (NodeLoader.iterate l perm) = 10%nat ∧
  length (NodeLoader.iterate l perm) ≠ 64%nat.
Proof.
  intros l perm.
  split; [vm_compute; left|]. split; [reflexivity|]. split; [reflexivity|].
  split; [change (reverse (seq 0 10) ≡ₚ seq 0 10); apply reverse_Permutation|].
  split; [reflexivity|]. vm_compute. discriminate.
Qed.

(** ** Checkpoint names and paths *)

Section Paths.

Lemma append_assoc (s t u : string) : (s +:+ t) +:+ u = s +:+ t +:+ u.
Proof.
  induction s as [|c s IH]; rewrite ?append_nil, ?append_cons; [done|].
  by rewrite IH.
Qed.

Lemma append_empty_r (s : string) : s +:+ "" = s.
Proof.
  induction s as [|c s IH]; rewrite ?append_nil, ?append_cons; [done|].
  by rewrite IH.
Qed.

Lemma no_slash_app (s t : string) :
  no_slash (s +:+ t) = no_slash s && no_slash t.
Proof.
  induction s as [|c s IH]; rewrite ?append_nil, ?append_cons; simpl; [done|].
  rewrite IH. by rewrite andb_assoc.
Qed.

Lemma numeric_no_slash (s : string) : Py.all_numeric s = true → no_slash s = true.
Proof.
  induction s as [|c s IH]; simpl; [done|].
  intros [Hc Hs]%andb_prop. rewrite (IH Hs), andb_true_r.
  apply negb_true_iff, bool_decide_eq_false. intros ->. discriminate Hc.
Qed.

Lemma str_int_no_slash (i : Z) : no_slash (Py.str_int i) = true.
Proof. apply numeric_no_slash, str_int_numeric. Qed.

Lemma model_name_no_slash (n_neigh hid num_convs : Z) (augmentation : bool) :
  no_slash (model_name n_neigh hid num_convs augmentation +:+ ".h5") = true.
Proof.
  unfold model_name. rewrite !no_slash_app, !str_int_no_slash.
  by destruct augmentation.
Qed.

Lemma endswith_sep_has_slash (s t : string) :
  Py.endswith_sep s = true → no_slash (s +:+ t) = false.
Proof.
  induction s as [|c s IH]; [discriminate|].
  rewrite append_cons. simpl. destruct s as [|d s].
  - intros Hc%bool_decide_eq_true. subst c. reflexivity.
  - intros Hs. rewrite (IH Hs). apply andb_false_r.
Qed.

Lemma dir_prefix_has_slash (s t : string) :
  dir_prefix s = true → s ≠ "" → no_slash (s +:+ t) = false.
Proof.
  unfold dir_prefix. intros [He|Hs]%orb_prop Hne.
  - by apply bool_decide_eq_true in He.
  - by apply endswith_sep_has_slash.
Qed.

Lemma dir_prefix_tail (c : ascii) (s : string) :
  dir_prefix (String c s) = true → dir_prefix s = true.
Proof.
  unfold dir_prefix. simpl. destruct s as [|d s]; [done|].
  intros H. rewrite H. apply orb_true_r.
Qed.

(** The last component of a joined path determines itself: two paths made
    of a directory prefix and a separator-free name are equal only if the
    names (and the prefixes) are. *)
Lemma last_component_inj (p1 p2 b1 b2 : string) :
  dir_prefix p1 = true → dir_prefix p2 = true →
  no_slash b1 = true → no_slash b2 = true →
  p1 +:+ b1 = p2 +:+ b2 → p1 = p2 ∧ b1 = b2.
Proof.
  revert p2. induction p1 as [|c p1 IH]; intros p2 H1 H2 Hb1 Hb2 Heq.
  - rewrite append_nil in Heq. destruct p2 as [|d p2]; [done|].
    rewrite Heq, (dir_prefix_has_slash _ b2 H2) in Hb1; done.
  - destruct p2 as [|d p2].
    + rewrite append_nil in Heq.
      rewrite <-Heq, (dir_prefix_has_slash _ b1 H1) in Hb2; done.
    + rewrite !append_cons in Heq. injection Heq as -> Heq.
      destruct (IH p2 (dir_prefix_tail _ _ H1) (dir_prefix_tail _ _ H2)
                  Hb1 Hb2 Heq) as [-> ->].
      done.
Qed.

Lemma startswith_slash (b : string) :
  no_slash b = true → Py.startswith b "/" = false.
Proof.
  destruct b as [|c b]; [done|]. simpl.
  intros [Hc _]%andb_prop. apply negb_true_iff, bool_decide_eq_false in Hc.
  case_bool_decide; [congruence|done].
Qed.

(** [os.path.join(a, b)] for a separator-free [b]: a directory prefix
    followed by [b]. *)
Lemma path_join_relative (a b : string) :
  no_slash b = true →
  ∃ p, dir_prefix p = true ∧ Py.path_join a b = p +:+ b.
Proof.
  intros Hb. unfold Py.path_join. rewrite (startswith_slash b Hb).
  destruct (bool_decide (a = "") || Py.endswith_sep a) eqn:Ha.
  - by exists a.
  - exists (a +:+ "/"). split; [|by rewrite append_assoc].
    unfold dir_prefix. apply orb_true_iff. right.
    clear Ha Hb. induction a as [|c a IH]; [done|].
    rewrite append_cons. simpl.
    destruct (a +:+ "/") eqn:Hq; [by destruct a|exact IH].
Qed.

End Paths.

(** X1: two runs whose checkpoint paths coincide have the same
    hyperparameters, whatever model directories they use: the checkpoint
    file name is the last path component and contains no separator. *)
Theorem checkpoint_path_determines_run (dir1 dir2 : string)
    (n1 h1 c1 n2 h2 c2 : Z) (a1 a2 : bool) :
  model_trained_path dir1 (model_name n1 h1 c1 a1)
    = model_trained_path dir2 (model_name n2 h2 c2 a2) →
  (n1, h1, c1, a1) = (n2, h2, c2, a2).
Proof.
  unfold model_trained_path. intros Heq.
  destruct (path_join_relative dir1 _ (model_name_no_slash n1 h1 c1 a1))
    as (p1 & Hp1 & E1).
  destruct (path_join_relative dir2 _ (model_name_no_slash n2 h2 c2 a2))
    as (p2 & Hp2 & E2).
  rewrite E1, E2 in Heq.
  apply last_component_inj in Heq as [_ Heq];
    [|done|done|apply model_name_no_slash..].
  unfold model_name in Heq. rewrite !append_assoc in Heq.
  apply (inj (String.app "gc_model_test_attack_")) in Heq.
  apply numeric_field_split in Heq as [Hn Heq];
    [|apply str_int_numeric..|done|done].
  apply (inj (String.app "_hid_")) in Heq.
  apply numeric_field_split in Heq as [Hh Heq];
    [|apply str_int_numeric..|done|done].
  apply (inj (String.app "_convs_")) in Heq.
  apply numeric_field_split in Heq as [Hc Ha];
    [|apply str_int_numeric..|by destruct a1|by destruct a2].
  apply (inj Py.str_int) in Hn, Hh, Hc. subst.
  destruct a1, a2; done.
Qed.

Lemma checkpoint_path_determines_run_witness :
  model_trained_path "result/model" (model_name 0 2048 16 true)
    = model_trained_path "result/model" (model_name 0 2048 16 true) ∧
  (0, 2048, 16, true) = (0, 2048, 16, true).
Proof.
  split; [reflexivity|].
  apply (checkpoint_path_determines_run "result/model" "result/model").
  reflexivity.
Defined.

Section NameSuffix.

Lemma ends_with_refl (t : string) : ends_with t t = true.
Proof. destruct t; simpl; [done|]. by rewrite bool_decide_eq_true_2. Qed.

Lemma ends_with_app_r (s t : string) : ends_with (s +:+ t) t = true.
Proof.
  induction s as [|c s IH]; rewrite ?append_nil, ?append_cons.
  - apply ends_with_refl.
  - simpl. by case_bool_decide.
Qed.

Lemma numeric_not_aug (u : string) :
  Py.all_numeric u = true → ends_with u "_aug" = false.
Proof.
  induction u as [|c u IH]; [done|]. simpl.
  intros [Hc Hu]%andb_prop.
  case_bool_decide as Heq; [|by apply IH].
  injection Heq as -> _. discriminate Hc.
Qed.

Lemma numeric_tail_not_aug (p u : string) :
  Py.all_numeric u = true → u ≠ "" → ends_with (p +:+ u) "_aug" = false.
Proof.
  intros Hu Hne.
  induction p as [|c p IH]; rewrite ?append_nil, ?append_cons.
  - by apply numeric_not_aug.
  - simpl. case_bool_decide as Heq; [exfalso|exact IH].
    injection Heq as _ Heq. clear IH.
    destruct p as [|c1 p]; rewrite ?append_nil, ?append_cons in Heq;
      [by subst u|].
    injection Heq as _ Heq.
    destruct p as [|c2 p]; rewrite ?append_nil, ?append_cons in Heq;
      [by subst u|].
    injection Heq as _ Heq.
    destruct p as [|c3 p]; rewrite ?append_nil, ?append_cons in Heq;
      [by subst u|].
    injection Heq as _ Heq.
    destruct p; rewrite ?append_nil, ?append_cons in Heq; [done|discriminate].
Qed.

Lemma pretty_N_go_nonempty (x : N) (s : string) :
  s ≠ "" → pretty_N_go x s ≠ "".
Proof.
  revert s. induction (N.lt_wf_0 x) as [x _ IH]; intros s Hs.
  destruct (decide (x = 0)%N) as [->|Hx].
  - by rewrite pretty_N_go_0.
  - rewrite pretty_N_go_step by lia. apply IH; [apply N.div_lt; lia|done].
Qed.

Lemma pretty_N_nonempty (x : N) : pretty x ≠ "".
Proof.
  unfold pretty, pretty_N. case_decide; [done|].
  rewrite pretty_N_go_step by lia. by apply pretty_N_go_nonempty.
Qed.

Lemma str_int_nonempty (i : Z) : Py.str_int i ≠ "".
Proof.
  unfold Py.str_int, pretty, pretty_Z. destruct i as [|p|p]; [done|..].
  - apply pretty_N_nonempty.
  - done.
Qed.

End NameSuffix.

(** X2: the checkpoint name ends with [_aug] exactly when augmentation is
    enabled. *)
Theorem model_name_aug_suffix (n_neigh hid num_convs : Z) (augmentation : bool) :
  ends_with (model_name n_neigh hid num_convs augmentation) "_aug" = augmentation.
Proof.
  unfold model_name. destruct augmentation.
  - rewrite <-!append_assoc. apply ends_with_app_r.
  - rewrite append_empty_r, <-!append_assoc.
    apply numeric_tail_not_aug; [apply str_int_numeric|apply str_int_nonempty].
Qed.

(** ** Data flow and the checkpoint store *)

(** X3: training sees the train and validation graphs only and evaluation
    the test graph only.  Every [train] call receives the loaders of the
    train and of the val graph, the freshly initialised parameters and an
    optimizer built over them; the single [predict] call receives the
    loader of the test graph; both run on the same device, the GPU exactly
    when one is available. *)
Theorem train_and_predict_data_flow (E : Collaborators) (dataset_path : string)
    (n_neigh : Z) (augmentation : bool) (hid num_convs : Z) (w : World) :
  let t := trace_of (node_classification E dataset_path n_neigh augmentation
                       hid num_convs w) in
  let train_data := build_graph E (train_dataset_args dataset_path n_neigh augmentation) in
  let val_data := build_graph E (val_dataset_args dataset_path n_neigh) in
  let test_data := build_graph E (test_dataset_args dataset_path n_neigh) in
  let device := if cuda_is_available w then cuda else cpu in
  (∃ model, predict_calls t = [(model, mkLoader test_data 64 true, device)]) ∧
  Forall (λ a, ta_train_loader a = mkLoader train_data 64 true ∧
               ta_val_dataloader a = mkLoader val_data 64 true ∧
               ta_device a = device ∧
               ta_optimizer a = Adadelta (ta_model a) ∧
               Forall (λ m, ta_model a = (init_parameters E m (rng w)).1)
                      (models_made t))
    (train_calls t).
Proof.
  intros t train_data val_data test_data device.
  subst t train_data val_data test_data device.
  run_main_cases E w.
  - split; [by eexists|constructor].
  - split; [by eexists|]. by repeat constructor.
Qed.

Lemma resumed_world (E : Collaborators) (dataset_path : string)
    (n_neigh : Z) (augmentation : bool) (hid num_convs : Z) (w : World)
    (stored : StateDict) :
  let path :=
    model_trained_path
      (model_path (get_path_of_all E NAME_DIR n_neigh hid num_convs augmentation))
      (model_name n_neigh hid num_convs augmentation) in
  let r := node_classification E dataset_path n_neigh augmentation hid num_convs w in
  files w !! path = Some stored →
  files (world_of r) = files w ∧
  cuda_is_available (world_of r) = cuda_is_available w.
Proof.
  intros path r Hsome. subst r path.
  unfold node_classification.
  generalize (main_globals_proto_type E). generalize (main_globals E).
  intros G HG. unfold_run. rewrite Hsome. simpl. rewrite HG. simpl.
  split; reflexivity.
Qed.

(** X4: a run that finds its checkpoint writes nothing: the checkpoint
    store after the run is the store before it. *)
Theorem resumed_run_leaves_store_untouched (E : Collaborators)
    (dataset_path : string) (n_neigh : Z) (augmentation : bool)
    (hid num_convs : Z) (w : World) (stored : StateDict) :
  files w !! model_trained_path
               (model_path (get_path_of_all E NAME_DIR n_neigh hid num_convs
                              augmentation))
               (model_name n_neigh hid num_convs augmentation)
    = Some stored →
  files (world_of (node_classification E dataset_path n_neigh augmentation
                     hid num_convs w)) = files w.
Proof.
  intros Hsome.
  by destruct (resumed_world E dataset_path n_neigh augmentation hid num_convs
                 w stored Hsome).
Qed.

Lemma resumed_run_leaves_store_untouched_witness :
  files Scenario.w1
    !! model_trained_path
         (model_path (get_path_of_all Scenario.E NAME_DIR 0 2048 16 true))
         (model_name 0 2048 16 true) = Some [9%Q] ∧
  files (world_of (node_classification Scenario.E "dataset" 0 true 2048 16
                     Scenario.w1)) = files Scenario.w1.
Proof.
  assert (Hsome : files Scenario.w1
    !! model_trained_path
         (model_path (get_path_of_all Scenario.E NAME_DIR 0 2048 16 true))
         (model_name 0 2048 16 true) = Some [9%Q]).
  { vm_compute. reflexivity. }
  split; [exact Hsome|].
  exact (resumed_run_leaves_store_untouched Scenario.E "dataset" 0 true 2048
           16 Scenario.w1 [9%Q] Hsome).
Defined.

(** ** More on the class weights *)

Section ClassWeightsMore.

Lemma np_unique_NoDup (y : list Z) : NoDup (np_unique y).
Proof.
  unfold np_unique. rewrite merge_sort_Permutation. apply NoDup_remove_dups.
Qed.

Lemma sorted_NoDup_strict (l : list Z) :
  StronglySorted Z.le l → NoDup l → StronglySorted Z.lt l.
Proof.
  induction 1 as [|x l Hs IH Hall]; intros Hnd; [constructor|].
  apply NoDup_cons in Hnd as [Hx Hnd]. constructor; [by apply IH|].
  apply Forall_forall. intros z Hz.
  pose proof (proj1 (Forall_forall _ _) Hall z Hz) as Hle. cbv beta in Hle.
  assert (x ≠ z) by (intros ->; by apply Hx). lia.
Qed.

Lemma sum_indicator (l : list Z) (x : Z) :
  NoDup l → x ∈ l →
  sum_list_with (λ c, if Z.eq_dec x c then 1 else 0)%nat l = 1%nat.
Proof.
  induction 1 as [|c l Hc Hnd IH]; intros Hx; [by apply elem_of_nil in Hx|].
  simpl. destruct (Z.eq_dec x c) as [->|Hne].
  - clear IH. assert (Hzero : sum_list_with
      (λ c0, if Z.eq_dec c c0 then 1 else 0)%nat l = 0%nat).
    { clear Hnd Hx. induction l as [|d l IH]; [done|]. simpl.
      apply not_elem_of_cons in Hc as [Hd Hc].
      destruct (Z.eq_dec c d); [done|]. by rewrite IH. }
    by rewrite Hzero.
  - apply elem_of_cons in Hx as [->|Hx]; [done|]. by rewrite IH.
Qed.

Lemma sum_bincount_cons (l y : list Z) (x : Z) :
  sum_list_with (bincount (x :: y)) l
  = (sum_list_with (bincount y) l
     + sum_list_with (λ c, if Z.eq_dec x c then 1 else 0) l)%nat.
Proof.
  induction l as [|c l IH]; [done|]. simpl. rewrite IH.
  unfold bincount. simpl. destruct (Z.eq_dec x c); lia.
Qed.

(** The class counts add up to the number of samples. *)
Lemma sum_bincount (l y : list Z) :
  NoDup l → (∀ c, c ∈ y → c ∈ l) →
  sum_list_with (bincount y) l = length y.
Proof.
  intros Hnd. induction y as [|x y IH]; intros Hsub.
  - clear Hsub. induction Hnd as [|c l Hc Hnd IHl]; [done|].
    simpl. by rewrite IHl.
  - rewrite sum_bincount_cons, IH, sum_indicator; [simpl; lia|done|..].
    + apply Hsub. by left.
    + intros c Hc. apply Hsub. by right.
Qed.

Lemma sum_list_with_const (l : list Z) (f : Z → nat) (m : nat) :
  (∀ c, c ∈ l → f c = m) → sum_list_with f l = (length l * m)%nat.
Proof.
  induction l as [|c l IH]; intros Hall; [done|]. simpl.
  rewrite (Hall c) by (by left). rewrite IH; [lia|].
  intros d Hd. apply Hall. by right.
Qed.

Lemma constant_labels_unique (y : list Z) (c0 : Z) :
  y ≠ [] → (∀ c, c ∈ y → c = c0) → np_unique y = [c0].
Proof.
  intros Hne Hall.
  assert (Hin : c0 ∈ np_unique y).
  { apply np_unique_elem. destruct y as [|x y]; [done|].
    rewrite <-(Hall x); by left. }
  assert (Hsame : ∀ c, c ∈ np_unique y → c = c0).
  { intros c Hc. by apply Hall, np_unique_elem. }
  pose proof (np_unique_NoDup y) as Hnd.
  destruct (np_unique y) as [|a [|b l]].
  - by apply elem_of_nil in Hin.
  - f_equal. apply Hsame. by left.
  - exfalso. apply NoDup_cons in Hnd as [Hab _]. apply Hab.
    rewrite (Hsame a), (Hsame b); [by left|right; by left|by left].
Qed.

Lemma balanced_split_weight_one (y : list Z) (c : Z) :
  (∀ c1 c2, c1 ∈ y → c2 ∈ y → bincount y c1 = bincount y c2) →
  c ∈ y → balanced_weight y c == 1.
Proof.
  intros Heven Hc.
  assert (Htotal : (length (np_unique y) * bincount y c)%nat = length y).
  { rewrite <-(sum_bincount (np_unique y) y);
      [|apply np_unique_NoDup|intros d Hd; by apply np_unique_elem].
    symmetry. apply sum_list_with_const.
    intros d Hd. apply Heven; [by apply np_unique_elem|done]. }
  pose proof (bincount_pos y c Hc). pose proof (np_unique_nonempty y c Hc).
  rewrite (balanced_weight_fraction y c Hc).
  unfold Qeq. simpl. rewrite Z2Pos.id by nia. nia.
Qed.

End ClassWeightsMore.

(** X9: on a split whose classes are all equally frequent every class
    weight is 1. *)
Theorem balanced_split_has_unit_weights (y : list Z) :
  (∀ c1 c2, c1 ∈ y → c2 ∈ y → bincount y c1 = bincount y c2) →
  ∀ c, c ∈ y → balanced_weight y c == 1.
Proof. intros Heven c Hc. by apply balanced_split_weight_one. Qed.

Lemma balanced_split_has_unit_weights_witness :
  (∀ c1 c2, c1 ∈ [0; 1; 1; 0] → c2 ∈ [0; 1; 1; 0] →
     bincount [0; 1; 1; 0] c1 = bincount [0; 1; 1; 0] c2) ∧
  balanced_weight [0; 1; 1; 0] 1 == 1.
Proof.
  assert (Heven : ∀ c1 c2, c1 ∈ [0; 1; 1; 0] → c2 ∈ [0; 1; 1; 0] →
            bincount [0; 1; 1; 0] c1 = bincount [0; 1; 1; 0] c2).
  { intros c1 c2 H1 H2. apply list_elem_of_In in H1, H2.
    simpl in H1, H2. intuition (subst; reflexivity). }
  split; [exact Heven|].
  apply (balanced_split_has_unit_weights [0; 1; 1; 0] Heven). right. left.
Defined.

(** X10: when all train labels are the same class, the training loss is
    built with a weight vector of a single entry (equal to 1), although the
    model is built for two classes. *)
Theorem single_class_split_has_one_weight (E : Collaborators)
    (dataset_path : string) (n_neigh : Z) (augmentation : bool)
    (hid num_convs : Z) (w : World) (c0 : Z) :
  let t := trace_of (node_classification E dataset_path n_neigh augmentation
                       hid num_convs w) in
  let y := data_y (build_graph E (train_dataset_args dataset_path n_neigh augmentation)) in
  y ≠ [] → (∀ c, c ∈ y → c = c0) →
  (∃ q, q == 1 ∧ head (criteria_made t) = Some (CrossEntropyLoss [q])) ∧
  Forall (λ a, length (ce_weight (ta_criterion a)) = 1%nat) (train_calls t) ∧
  ma_num_classes <$> models_made t = [2].
Proof.
  intros t y Hne Hall.
  assert (Hw : compute_class_weight y = [balanced_weight y c0]).
  { unfold compute_class_weight. by rewrite (constant_labels_unique y c0). }
  assert (Hone : balanced_weight y c0 == 1).
  { apply balanced_split_weight_one; [|].
    - intros c1 c2 H1 H2. by rewrite (Hall c1), (Hall c2).
    - destruct y as [|x y']; [done|]. rewrite <-(Hall x); by left. }
  destruct (criteria_of_the_run E dataset_path n_neigh augmentation hid
              num_convs w) as (Hmade & _ & Hcalls).
  fold t y in Hmade, Hcalls. rewrite Hw in Hmade, Hcalls.
  split; [|split].
  - exists (balanced_weight y c0). split; [exact Hone|]. by rewrite Hmade.
  - eapply Forall_impl; [exact Hcalls|]. by intros a [-> _].
  - subst t. clear. run_main_cases E w; reflexivity.
Qed.

Lemma single_class_split_has_one_weight_witness :
  data_y OneClass.graph3 ≠ [] ∧
  (∀ c, c ∈ data_y OneClass.graph3 → c = 0) ∧
  Forall (λ a, length (ce_weight (ta_criterion a)) = 1%nat)
    (train_calls (trace_of (node_classification OneClass.E "dataset" 0 true
                              2048 16 Scenario.w0))).
Proof.
  assert (Hall : ∀ c, c ∈ data_y OneClass.graph3 → c = 0).
  { intros c Hc. apply list_elem_of_In in Hc. simpl in Hc.
    intuition congruence. }
  split; [discriminate|]. split; [exact Hall|].
  destruct (single_class_split_has_one_weight OneClass.E "dataset" 0 true 2048
              16 Scenario.w0 0 ltac:(discriminate) Hall) as (_ & Hone & _).
  exact Hone.
Defined.

(** ** More on the node partition loader *)

Section PartitionMore.

Import NodeLoader.

Lemma batches_nil (fuel b : nat) : batches fuel b [] = [].
Proof. by destruct fuel. Qed.

Lemma batches_sizes (fuel b : nat) (order : list nat) :
  Forall (λ batch, (length batch ≤ b)%nat) (batches fuel b order) ∧
  ∀ i batch, batches fuel b order !! i = Some batch →
    (S i < length (batches fuel b order))%nat → length batch = b.
Proof.
  revert order. induction fuel as [|fuel IH]; intros order.
  { split; [constructor|]. intros i batch H. by destruct i. }
  destruct order as [|x order].
  { split; [constructor|]. intros i batch H. by destruct i. }
  cbn [batches]. destruct (IH (drop b (x :: order))) as [Hle Heq]. split.
  - constructor; [rewrite length_take; lia|exact Hle].
  - intros [|i] batch Hi Hlen.
    + injection Hi as <-. cbn [length] in Hlen.
      destruct (drop b (x :: order)) as [|z rest] eqn:Hdrop.
      { rewrite batches_nil in Hlen. simpl in Hlen. lia. }
      assert (Hlong : (b < length (x :: order))%nat).
      { destruct (decide (b < length (x :: order))%nat) as [|Hge]; [done|].
        rewrite drop_ge in Hdrop by lia. done. }
      rewrite length_take. lia.
    + cbn [length] in Hlen. apply (Heq i); [exact Hi|lia].
Qed.

Lemma concat_disjoint (ls : list (list nat)) (i j : nat) (a b : list nat)
    (x : nat) :
  NoDup (concat ls) → ls !! i = Some a → ls !! j = Some b →
  x ∈ a → x ∈ b → i = j.
Proof.
  revert i j. induction ls as [|l ls IH]; intros i j Hnd Hi Hj Ha Hb.
  { by destruct i. }
  cbn [concat] in Hnd. apply NoDup_app in Hnd as (Hl & Hsep & Hrest).
  assert (Hin : ∀ k c, ls !! k = Some c → x ∈ c → x ∈ concat ls).
  { intros k c Hk Hc. apply list_elem_of_In, in_concat. exists c.
    split; apply list_elem_of_In; [by eapply list_elem_of_lookup_2|done]. }
  destruct i as [|i], j as [|j]; simplify_eq/=.
  - done.
  - exfalso. by eapply Hsep, Hin.
  - exfalso. by eapply Hsep, Hin.
  - f_equal. by eapply IH.
Qed.

Lemma iterate_nodes (d : Data) (perm : list nat) :
  perm ≡ₚ seq 0 (num_nodes d) →
  concat (part_nodes <$> iterate (mkLoader d 64 true) perm) = perm.
Proof.
  intros Hperm. by destruct (iterate_partition d perm Hperm) as [H _].
Qed.

End PartitionMore.

(** X11: the parts of a traversal are balanced: each holds at most
    [ceil(N / 64)] nodes, and every part but the last holds exactly that
    many. *)
Theorem loader_parts_are_balanced (d : Data) (perm : list nat) :
  perm ≡ₚ seq 0 (num_nodes d) →
  let l := mkLoader d 64 true in
  let parts := NodeLoader.iterate l perm in
  Forall (λ p, (length (NodeLoader.part_nodes p) ≤ NodeLoader.batch_size l)%nat)
    parts ∧
  ∀ i p, parts !! i = Some p → (S i < length parts)%nat →
    length (NodeLoader.part_nodes p) = NodeLoader.batch_size l.
Proof.
  intros Hperm l parts. subst parts. unfold NodeLoader.iterate.
  cbn [ld_data ld_shuffle l].
  destruct (batches_sizes (num_nodes d) (NodeLoader.batch_size l) perm)
    as [Hle Heq].
  split.
  - apply Forall_fmap. exact Hle.
  - intros i p Hi Hlen. rewrite length_fmap in Hlen.
    rewrite list_lookup_fmap in Hi.
    destruct (NodeLoader.batches _ _ perm !! i) as [batch|] eqn:Hb; [|done].
    injection Hi as <-. by apply (Heq i).
Qed.

Lemma loader_parts_are_balanced_witness :
  let perm := [9; 8; 7; 6; 5; 4; 3; 2; 1; 0]%nat in
  perm ≡ₚ seq 0 (num_nodes Scenario.graph10) ∧
  Forall (λ p, (length (NodeLoader.part_nodes p)
                ≤ NodeLoader.batch_size (mkLoader Scenario.graph10 64 true))%nat)
    (NodeLoader.iterate (mkLoader Scenario.graph10 64 true) perm).
Proof.
  intros perm.
  assert (Hperm : perm ≡ₚ seq 0 (num_nodes Scenario.graph10)).
  { change (reverse (seq 0 10) ≡ₚ seq 0 10). apply reverse_Permutation. }
  split; [exact Hperm|].
  by destruct (loader_parts_are_balanced Scenario.graph10 perm Hperm).
Defined.

(** X12: edges are kept only inside a part.  Every edge of a part is an
    edge of the graph with both endpoints in that part; an edge whose
    endpoints fall into two different parts of the traversal is in no
    part. *)
Theorem crossing_edges_are_dropped (d : Data) (perm : list nat) :
  perm ≡ₚ seq 0 (num_nodes d) →
  let parts := NodeLoader.iterate (mkLoader d 64 true) perm in
  (∀ p e, p ∈ parts → e ∈ NodeLoader.part_edges p →
     e ∈ data_edge_index d ∧
     e.1 ∈ NodeLoader.part_nodes p ∧ e.2 ∈ NodeLoader.part_nodes p) ∧
  (∀ i j p q e, parts !! i = Some p → parts !! j = Some q → i ≠ j →
     e.1 ∈ NodeLoader.part_nodes p → e.2 ∈ NodeLoader.part_nodes q →
     ∀ r, r ∈ parts → e ∉ NodeLoader.part_edges r).
Proof.
  intros Hperm parts.
  assert (Hkept : ∀ p e, p ∈ parts → e ∈ NodeLoader.part_edges p →
     e ∈ data_edge_index d ∧
     e.1 ∈ NodeLoader.part_nodes p ∧ e.2 ∈ NodeLoader.part_nodes p).
  { intros p e Hp He. subst parts. unfold NodeLoader.iterate in Hp.
    apply list_elem_of_fmap in Hp as (batch & -> & _).
    cbn [NodeLoader.subgraph NodeLoader.part_edges NodeLoader.part_nodes ld_data] in *.
    apply list_elem_of_filter in He as [[H1 H2] He]. done. }
  split; [exact Hkept|].
  intros i j p q e Hi Hj Hij Hp Hq r Hr He.
  destruct (Hkept r e Hr He) as (_ & H1 & H2).
  apply list_elem_of_lookup in Hr as [k Hk].
  assert (Hnd : NoDup (concat (NodeLoader.part_nodes <$> parts))).
  { subst parts. rewrite iterate_nodes by done. rewrite Hperm. apply NoDup_seq. }
  assert (Hlook : ∀ n s, parts !! n = Some s →
            (NodeLoader.part_nodes <$> parts) !! n = Some (NodeLoader.part_nodes s)).
  { intros n s Hn. by rewrite list_lookup_fmap, Hn. }
  assert (k = i)
    by (eapply (concat_disjoint _ k i _ _ e.1); eauto).
  assert (k = j)
    by (eapply (concat_disjoint _ k j _ _ e.2); eauto).
  congruence.
Qed.

Lemma crossing_edges_are_dropped_witness :
  let perm := [9; 8; 7; 6; 5; 4; 3; 2; 1; 0]%nat in
  perm ≡ₚ seq 0 (num_nodes Scenario.graph10) ∧
  ∀ p e, p ∈ NodeLoader.iterate (mkLoader Scenario.graph10 64 true) perm →
    e ∈ NodeLoader.part_edges p → e ∈ data_edge_index Scenario.graph10.
Proof.
  intros perm.
  assert (Hperm : perm ≡ₚ seq 0 (num_nodes Scenario.graph10)).
  { change (reverse (seq 0 10) ≡ₚ seq 0 10). apply reverse_Permutation. }
  split; [exact Hperm|].
  destruct (crossing_edges_are_dropped Scenario.graph10 perm Hperm) as [Hkept _].
  intros p e Hp He. by destruct (Hkept p e Hp He).
Defined.

(** ** The command line *)

Section CommandLine.

Lemma digit_value_char (d : N) :
  (d < 10)%N → digit_value (pretty_N_char d) = Some (Z.of_N d).
Proof.
  intros Hd.
  assert (d = 0 ∨ d = 1 ∨ d = 2 ∨ d = 3 ∨ d = 4 ∨ d = 5 ∨ d = 6 ∨ d = 7
          ∨ d = 8 ∨ d = 9)%N as Hcases by lia.
  repeat (destruct Hcases as [->|Hcases]; [reflexivity|]). by subst d.
Qed.

(** Reading back the digits that [pretty_N_go] writes. *)
Lemma parse_digits_pretty_go (x : N) :
  ∃ k : Z, ∀ (s : string) (acc : Z),
    parse_digits (pretty_N_go x s) acc = parse_digits s (acc * k + Z.of_N x).
Proof.
  induction (N.lt_wf_0 x) as [x _ IH].
  destruct (decide (x = 0)%N) as [->|Hx].
  - exists 1. intros s acc. rewrite pretty_N_go_0. f_equal. lia.
  - destruct (IH (x `div` 10)%N) as [k Hk]; [apply N.div_lt; lia|].
    exists (10 * k). intros s acc.
    rewrite pretty_N_go_step by lia. rewrite Hk. cbn [parse_digits].
    rewrite digit_value_char by (apply N.mod_lt; lia). cbn [mbind option_bind].
    f_equal. rewrite (N.div_mod x 10) at 3 by lia. lia.
Qed.

Lemma parse_digits_pretty (x : N) :
  parse_digits (pretty x) 0 = Some (Z.of_N x).
Proof.
  unfold pretty, pretty_N. case_decide as Hx; [by subst x|].
  destruct (parse_digits_pretty_go x) as [k Hk]. rewrite Hk. simpl.
  f_equal.
Qed.

Lemma pretty_N_head (x : N) :
  ∃ c s, pretty x = String c s ∧ c ≠ "-"%char ∧ c ≠ "+"%char.
Proof.
  pose proof (pretty_N_nonempty x) as Hne.
  pose proof (pretty_N_numeric x) as Hnum.
  destruct (pretty x) as [|c s] eqn:Hp; [done|]. exists c, s.
  split; [done|]. split.
  - intros ->. unfold pretty, pretty_N in Hp. case_decide; [done|].
    by apply (pretty_N_go_ne_dash x "" s).
  - intros ->. discriminate Hnum.
Qed.

(** [int(str(i)) == i] *)
Lemma parse_int_str_int (i : Z) : parse_int (Py.str_int i) = Some i.
Proof.
  unfold Py.str_int, pretty at 1, pretty_Z. destruct i as [|p|p].
  - reflexivity.
  - destruct (pretty_N_head (N.pos p)) as (c & s & Hp & Hminus & Hplus).
    change (pretty p) with (pretty (N.pos p)).
    pose proof (parse_digits_pretty (N.pos p)) as Hd. rewrite Hp in *.
    unfold parse_int. rewrite !bool_decide_eq_false_2 by done. exact Hd.
  - change (pretty p) with (pretty (N.pos p)).
    rewrite append_cons, append_nil. unfold parse_int.
    rewrite bool_decide_eq_true_2 by done.
    rewrite bool_decide_eq_false_2 by apply pretty_N_nonempty.
    by rewrite parse_digits_pretty.
Qed.

End CommandLine.

(** X14: numbers written on the command line reach the pipeline as they
    are: for any integers passed after [-neigh], [-hid] and [-n_convs] in
    their decimal form, the script runs [node_classification] on the
    [dataset] directory of the working directory with exactly these
    values, and with augmentation enabled. *)
Theorem command_line_values_reach_the_run (E : Collaborators) (cwd : string)
    (n_neigh hid num_convs : Z) (w : World) :
  main E cwd ["-neigh"; Py.str_int n_neigh; "-hid"; Py.str_int hid;
              "-n_convs"; Py.str_int num_convs] w
  = node_classification E (Py.path_join cwd "dataset") n_neigh true hid
      num_convs w.
Proof.
  unfold main. cbn [parse_args].
  rewrite !bool_decide_eq_false_2 by done.
  rewrite !bool_decide_eq_true_2 by done.
  rewrite !bool_decide_eq_false_2 by done.
  rewrite !bool_decide_eq_true_2 by done.
  rewrite !parse_int_str_int. reflexivity.
Qed.

(** ** The plotting stage *)

Lemma last_two_base {A : Type} (a b : A) : [a; b] = [] ++ [a; b].
Proof. reflexivity. Qed.

Lemma last_two_cons {A : Type} (x : A) (l before tl : list A) :
  l = before ++ tl → x :: l = (x :: before) ++ tl.
Proof. by intros ->. Qed.

Ltac split_last_two :=
  repeat (first [apply last_two_base | apply last_two_cons]).

(** X15: in a namespace that binds [proto_type] the run completes, and its
    last two calls are the two plots: the confusion matrix under
    [confusion_matrix_path] and the recall chart under
    [detection_rate_path], both written under one and the same file name,
    which ends with [.png]. *)
Theorem plots_share_the_image_name (G : gmap string Binding)
    (E : Collaborators) (dataset_path : string) (n_neigh : Z)
    (augmentation : bool) (hid num_convs : Z) (w : World) (b : Binding) :
  G !! "proto_type" = Some b →
  let r := node_classification_in G E dataset_path n_neigh augmentation
             hid num_convs w in
  let P := get_path_of_all E NAME_DIR n_neigh hid num_convs augmentation in
  outcome_of r = Py.Ok tt ∧
  ∃ before cm recall image_name,
    ends_with image_name ".png" = true ∧
    trace_of r
    = before ++
      [PlotConfusionMatrix cm (MAPPING_keys E)
         (Py.path_join (confusion_matrix_path P) image_name);
       PlotRecall (MAPPING_keys E) recall
         (Py.path_join (detection_rate_path P) image_name)].
Proof.
  intros Hb r P. subst r P.
  assert (Hpng : ∀ s, ends_with (s +:+ ".png") ".png" = true)
    by (intros s; apply ends_with_app_r).
  unfold_run.
  destruct (files w !! _) eqn:Hfile; simpl; rewrite Hb; simpl.
  - split; [reflexivity|].
    do 4 eexists. split; cycle 1.
    + split_last_two.
    + rewrite <-!append_assoc. apply Hpng.
  - split; [reflexivity|].
    do 4 eexists. split; cycle 1.
    + split_last_two.
    + rewrite <-!append_assoc. apply Hpng.
Qed.

Lemma plots_share_the_image_name_witness :
  Scenario.globals_with_proto_type !! "proto_type" = Some (BStr "tcp") ∧
  outcome_of (node_classification_in Scenario.globals_with_proto_type
                Scenario.E "dataset" 0 true 2048 16 Scenario.w0) = Py.Ok tt.
Proof.
  assert (Hb : Scenario.globals_with_proto_type !! "proto_type"
               = Some (BStr "tcp")) by (vm_compute; reflexivity).
  split; [exact Hb|].
  by destruct (plots_share_the_image_name Scenario.globals_with_proto_type
                 Scenario.E "dataset" 0 true 2048 16 Scenario.w0 _ Hb).
Defined.

(** ** The training loop with its failure cases *)

Section ControllerFacts.

Import NcModel Controller.

Variable E : Collaborators.
Variable non_finite : StateDict → Rng → bool.
Variable a : TrainArgs.

Lemma phase_cases (es : EarlyStop) :
  es_phase es = STOPPED ∨ es_phase es ≠ STOPPED.
Proof. destruct (es_phase es); (by left) || (by right). Qed.

Lemma loop_stopped (remaining : nat) (es : EarlyStop) (model : StateDict)
    (opt : Optimizer) (w : World) (hist : list EpochRecord) :
  es_phase es = STOPPED →
  loop E non_finite a remaining es model opt w hist
  = Finished (mkLoopResult es model opt w hist).
Proof. intros Hs. destruct remaining; simpl; by rewrite Hs. Qed.

Lemma loop_step (remaining : nat) (es : EarlyStop) (model : StateDict)
    (opt : Optimizer) (w : World) (hist : list EpochRecord) :
  es_phase es ≠ STOPPED →
  loop E non_finite a (S remaining) es model opt w hist
  = if no_partitions (ta_train_loader a) then Failed EmptyDatasetError w
    else if non_finite model (rng w) then Failed DivergedTrainingError w
    else
      let '(model1, opt1, g1) :=
        fit_epoch E model opt (ta_train_loader a) (ta_criterion a)
                  (ta_device a) (rng w) in
      if ta_evaluation a then
        let '(v, g2) :=
          validation_loss E model1 (ta_val_dataloader a) (ta_criterion_val a)
                          (ta_device a) g1 in
        let hist1 := mkEpochRecord v model1 :: hist in
        if improves v (es_best es) then
          loop E non_finite a remaining (mkEarlyStop IMPROVING (Some v) 0)
            model1 opt1
            (set_files (<[checkpoint_path a := model1]> (files w)) (set_rng g2 w))
            hist1
        else
          let s := S (es_stall es) in
          loop E non_finite a remaining
            (mkEarlyStop
               (if (ta_patience a <=? Z.of_nat s)%Z then STOPPED else STALLED)
               (es_best es) s)
            model1 opt1 (set_rng g2 w) hist1
      else
        loop E non_finite a remaining es model1 opt1 (set_rng g1 w) hist.
Proof. intros Hs. cbn [loop]. by destruct (es_phase es). Qed.

Lemma loop_exhausted (es : EarlyStop) (model : StateDict)
    (opt : Optimizer) (w : World) (hist : list EpochRecord) :
  es_phase es ≠ STOPPED →
  loop E non_finite a 0 es model opt w hist
  = Finished (mkLoopResult (stopped es) model opt w hist).
Proof. intros Hs. cbn [loop]. by destruct (es_phase es). Qed.

(** A training call that finishes has run the epochs of
    [NcModel.train_loop]. *)
Lemma loop_finished (remaining : nat) :
  ∀ es model opt w hist r,
    es_phase es ≠ STOPPED →
    loop E non_finite a remaining es model opt w hist = Finished r →
    r = train_loop E a remaining es model opt w hist.
Proof.
  induction remaining as [|remaining IH]; intros es model opt w hist r Hs.
  - rewrite loop_exhausted by done. by intros [= <-].
  - rewrite loop_step by done. cbn [train_loop].
    destruct (no_partitions _); [discriminate|].
    destruct (non_finite model (rng w)); [discriminate|].
    destruct (fit_epoch E model opt _ _ _ _) as [[model1 opt1] g1].
    destruct (ta_evaluation a); [|by apply IH].
    destruct (validation_loss E model1 _ _ _ _) as [v g2].
    destruct (improves v (es_best es)); [by apply IH|].
    destruct (ta_patience a <=? _).
    + rewrite loop_stopped by done. by intros [= <-].
    + by apply IH.
Qed.

(** Without partitions the first epoch fails, in the state the call was
    made in. *)
Lemma loop_empty (remaining : nat) (es : EarlyStop) (model : StateDict)
    (opt : Optimizer) (w : World) (hist : list EpochRecord) :
  es_phase es ≠ STOPPED → no_partitions (ta_train_loader a) = true →
  loop E non_finite a (S remaining) es model opt w hist
  = Failed EmptyDatasetError w.
Proof. intros Hs He. rewrite loop_step by done. by rewrite He. Qed.

Lemma loop_diverged (remaining : nat) (es : EarlyStop) (model : StateDict)
    (opt : Optimizer) (w : World) (hist : list EpochRecord) :
  es_phase es ≠ STOPPED → no_partitions (ta_train_loader a) = false →
  non_finite model (rng w) = true →
  loop E non_finite a (S remaining) es model opt w hist
  = Failed DivergedTrainingError w.
Proof. intros Hs He Hd. rewrite loop_step by done. by rewrite He, Hd. Qed.

(** Why a training call fails. *)
Lemma loop_failed (remaining : nat) :
  ∀ es model opt w hist e w',
    loop E non_finite a remaining es model opt w hist = Failed e w' →
    (e = EmptyDatasetError ∧ no_partitions (ta_train_loader a) = true) ∨
    (e = DivergedTrainingError ∧ ∃ m g, non_finite m g = true).
Proof.
  induction remaining as [|remaining IH]; intros es model opt w hist e w'.
  - cbn [loop]. by destruct (es_phase es).
  - destruct (phase_cases es) as [Hs|Hs].
    { by rewrite loop_stopped. }
    rewrite loop_step by done.
    destruct (no_partitions _) eqn:He; [intros [= <- <-]; by left|].
    destruct (non_finite model (rng w)) eqn:Hd;
      [intros [= <- <-]; right; eauto|].
    destruct (fit_epoch E model opt _ _ _ _) as [[model1 opt1] g1].
    destruct (ta_evaluation a); [|by apply IH].
    destruct (validation_loss E model1 _ _ _ _) as [v g2].
    destruct (improves v (es_best es)); by apply IH.
Qed.

(** Without failure cases the call finishes. *)
Lemma loop_finishes (remaining : nat) :
  no_partitions (ta_train_loader a) = false →
  (∀ m g, non_finite m g = false) →
  ∀ es model opt w hist,
    ∃ r, loop E non_finite a remaining es model opt w hist = Finished r.
Proof.
  intros He Hd.
  induction remaining as [|remaining IH]; intros es model opt w hist.
  - cbn [loop]. destruct (es_phase es); eauto.
  - destruct (phase_cases es) as [Hs|Hs].
    { rewrite loop_stopped by done. eauto. }
    rewrite loop_step by done. rewrite He, Hd.
    destruct (fit_epoch E model opt _ _ _ _) as [[model1 opt1] g1].
    destruct (ta_evaluation a); [|by apply IH].
    destruct (validation_loss E model1 _ _ _ _) as [v g2].
    destruct (improves v (es_best es)); by apply IH.
Qed.

End ControllerFacts.

(** C7: the training call of the run, with [patience = 20] and at most 1000
    epochs.  The controller starts in IMPROVING with best-loss +infinity, so
    that any first loss improves.  It fails with [EmptyDatasetError] when
    the train iterator has no partition and with [DivergedTrainingError] on
    a non-finite loss, and for no other reason; without these it finishes.
    When it finishes it is STOPPED after at least one epoch; if that is
    before the 1000th epoch, the last 20 epochs are exactly the consecutive
    epochs without improvement, and at no earlier epoch had 20 of them
    accumulated; the checkpoint stored under [model_name] holds the
    parameters of the epoch with the best validation loss. *)
Theorem early_stopping_of_the_training_call (E : Collaborators)
    (dataset_path : string) (n_neigh : Z) (augmentation : bool)
    (hid num_convs : Z) (w w' : World) (a : TrainArgs)
    (non_finite : StateDict → Rng → bool) :
  In (Train a) (trace_of (node_classification E dataset_path n_neigh
                            augmentation hid num_convs w)) →
  let res := Controller.train E non_finite a w' in
  let empty := Controller.no_partitions (ta_train_loader a) in
  (NcModel.es_phase NcModel.es_init = NcModel.IMPROVING ∧
   NcModel.es_best NcModel.es_init = None ∧
   ∀ v, NcModel.improves v (NcModel.es_best NcModel.es_init) = true) ∧
  ta_patience a = 20 ∧
  (empty = true → res = Controller.Failed Controller.EmptyDatasetError w') ∧
  (empty = false → non_finite (ta_model a) (rng w') = true →
     res = Controller.Failed Controller.DivergedTrainingError w') ∧
  (∀ e w'', res = Controller.Failed e w'' →
     (e = Controller.EmptyDatasetError ∧ empty = true) ∨
     (e = Controller.DivergedTrainingError ∧ ∃ m g, non_finite m g = true)) ∧
  (empty = false → (∀ m g, non_finite m g = false) →
     ∃ r, res = Controller.Finished r) ∧
  (∀ r, res = Controller.Finished r →
     let h := NcModel.lr_history r in
     NcModel.es_phase (NcModel.lr_state r) = NcModel.STOPPED ∧
     (h ≠ [] ∧ (length h ≤ 1000)%nat) ∧
     ((length h < 1000)%nat →
        NcModel.trailing_stall (NcModel.losses h) = 20%nat) ∧
     (∀ newer older, h = newer ++ older → newer ≠ [] →
        (NcModel.trailing_stall (NcModel.losses older) < 20)%nat) ∧
     (∃ best, NcModel.best_epoch h best ∧
        files (NcModel.lr_world r) !! NcModel.checkpoint_path a
          = Some (NcModel.ep_model best) ∧
        NcModel.es_best (NcModel.lr_state r)
          = Some (NcModel.ep_val_loss best))).
Proof.
  intros Hin res empty.
  destruct (train_call_shape _ _ _ _ _ _ _ _ Hin) as (Heval & Hpat & Hepochs & _).
  assert (Hinit : NcModel.es_phase NcModel.es_init ≠ NcModel.STOPPED) by done.
  assert (Hres : res = Controller.loop E non_finite a (S 999) NcModel.es_init
                         (ta_model a) (ta_optimizer a) w' []).
  { subst res. unfold Controller.train. by rewrite Hepochs. }
  split; [by repeat split|]. split; [exact Hpat|].
  split; [|split; [|split; [|split]]].
  - intros He. rewrite Hres. by apply loop_empty.
  - intros He Hd. rewrite Hres. by apply loop_diverged.
  - intros e w'' Hf. rewrite Hres in Hf. by apply loop_failed in Hf.
  - intros He Hd. rewrite Hres. by apply loop_finishes.
  - intros r Hr h. rewrite Hres in Hr.
    apply loop_finished in Hr; [|done].
    pose proof (run_train_post E a Heval ltac:(lia) w') as Hpost.
    unfold NcModel.run_train in Hpost. rewrite Hepochs in Hpost.
    change (Z.to_nat 1000) with (S 999) in Hpost. rewrite <-Hr in Hpost.
    fold h in Hpost.
    assert (Hne : h ≠ []) by (apply (NcModel.post_ran Hpost); lia).
    split; [apply (NcModel.post_phase Hpost)|].
    split; [split; [exact Hne|apply (NcModel.post_length Hpost)]|].
    split; [|split].
    + intros Hlt. pose proof (NcModel.post_stop Hpost Hlt) as Hstop.
      fold h in Hstop. lia.
    + intros newer older Heq Hnewer.
      pose proof (NcModel.post_before Hpost newer older Heq Hnewer). lia.
    + destruct (NcModel.post_best Hpost Hne) as (best & Hbest & Hes & Hfile).
      by exists best.
Qed.

Lemma early_stopping_witness :
  In (Train Scenario.first_train_call) (trace_of Scenario.first_run) ∧
  ∃ r, Controller.train Scenario.E (λ _ _, false) Scenario.first_train_call
         Scenario.w0 = Controller.Finished r ∧
       (length (NcModel.lr_history r) < 1000)%nat ∧
       NcModel.trailing_stall (NcModel.losses (NcModel.lr_history r)) = 20%nat.
Proof.
  assert (Hin : In (Train Scenario.first_train_call) (trace_of Scenario.first_run)).
  { vm_compute. repeat (first [left; reflexivity | right]). }
  split; [exact Hin|].
  destruct (early_stopping_of_the_training_call Scenario.E "dataset" 0 true
              2048 16 Scenario.w0 Scenario.w0 Scenario.first_train_call
              (λ _ _, false) Hin)
    as (_ & _ & _ & _ & _ & Hfinishes & Hfinished).
  destruct Hfinishes as [r Hr]; [reflexivity|done|].
  exists r. split; [exact Hr|].
  destruct (Hfinished r Hr) as (_ & _ & Hstop & _).
  assert (Hlen : (length (NcModel.lr_history r) < 1000)%nat).
  { assert (Hsome : Some (length (NcModel.lr_history r)) = Some 29%nat).
    { transitivity (match Controller.train Scenario.E (λ _ _, false)
                            Scenario.first_train_call Scenario.w0 with
                    | Controller.Finished r' => Some (length (NcModel.lr_history r'))
                    | _ => None
                    end); [by rewrite Hr|vm_compute; reflexivity]. }
    injection Hsome as ->. lia. }
  split; [exact Hlen|exact (Hstop Hlen)].
Defined.

(** The controller on the spec's scenario 3 (five epochs at most, patience
    2, validation losses 1.0, 0.9, 0.95, 0.96, 0.97): it finishes after
    epoch 4 with the checkpoint of epoch 2; with a non-finite loss in the
    first epoch it fails and leaves no checkpoint. *)
Example scenario3_controller :
  (∃ r, Controller.train Scenario.E3 (λ _ _, false) Scenario.train_args3
          Scenario.w0 = Controller.Finished r ∧
        length (NcModel.lr_history r) = 4%nat ∧
        files (NcModel.lr_world r) !! "result/model/scenario3.h5" = Some [2%Q]) ∧
  Controller.train Scenario.E3 (λ _ _, true) Scenario.train_args3 Scenario.w0
  = Controller.Failed Controller.DivergedTrainingError Scenario.w0.
Proof.
  split; [|vm_compute; reflexivity].
  eexists. split; [vm_compute; reflexivity|]. split; reflexivity.
Qed.

(** ** The weight vectors of the two losses *)

Lemma balanced_weight_by_count (labels : list Z) (c1 c2 : Z) :
  bincount labels c1 = bincount labels c2 →
  balanced_weight labels c1 = balanced_weight labels c2.
Proof. intros H. unfold balanced_weight. by rewrite H. Qed.

(** The weight vector of a loss built from [labels]: one entry per class
    present, in the order of the distinct labels, and ordered inversely to
    the class counts. *)
Lemma class_weights_ordered (labels : list Z) (crit : Criterion) :
  crit = CrossEntropyLoss (compute_class_weight labels) →
  NoDup (np_unique labels) ∧
  (∀ c, c ∈ np_unique labels ↔ c ∈ labels) ∧
  length (ce_weight crit) = length (np_unique labels) ∧
  ∀ i j ci cj wi wj,
    np_unique labels !! i = Some ci → np_unique labels !! j = Some cj →
    ce_weight crit !! i = Some wi → ce_weight crit !! j = Some wj →
    ((bincount labels ci < bincount labels cj)%nat ↔ (wj < wi)%Q) ∧
    (∀ rnd : Q → Q, (∀ p q, (p <= q)%Q → (rnd p <= rnd q)%Q) →
       (bincount labels ci < bincount labels cj)%nat → (rnd wj <= rnd wi)%Q).
Proof.
  intros ->. cbn [ce_weight].
  split; [apply np_unique_NoDup|]. split; [apply np_unique_elem|].
  split; [unfold compute_class_weight; apply length_fmap|].
  intros i j ci cj wi wj Hi Hj Hwi Hwj.
  rewrite (compute_class_weight_lookup _ _ _ Hi) in Hwi.
  rewrite (compute_class_weight_lookup _ _ _ Hj) in Hwj.
  injection Hwi as <-. injection Hwj as <-.
  assert (Hci : ci ∈ labels) by (by eapply np_unique_elem, list_elem_of_lookup_2).
  assert (Hcj : cj ∈ labels) by (by eapply np_unique_elem, list_elem_of_lookup_2).
  split; [split|].
  - by apply balanced_weight_minority.
  - intros Hlt.
    destruct (lt_eq_lt_dec (bincount labels ci) (bincount labels cj))
      as [[Hc|Hc]|Hc]; [done|exfalso..].
    + rewrite (balanced_weight_by_count _ _ _ Hc) in Hlt.
      by apply Qlt_irrefl in Hlt.
    + pose proof (balanced_weight_minority labels cj ci Hcj Hci Hc) as Hgt.
      apply (Qlt_irrefl (balanced_weight labels ci)).
      exact (Qlt_trans _ _ _ Hgt Hlt).
  - intros rnd Hmono Hc. apply Hmono, Qlt_le_weak.
    by apply balanced_weight_minority.
Qed.

(** C3: the training and the validation loss are cross-entropy losses, each
    built exactly once and before the training call, which receives them as
    they are.  The weight vector of each has one entry per class present in
    its own split (train labels for the training loss, validation labels
    for the validation loss), in the order of the distinct labels, and a
    class with fewer samples has the larger entry: strictly in exact
    arithmetic, and at least as large after any monotone rounding. *)
Theorem losses_weighted_by_inverse_frequency (E : Collaborators)
    (dataset_path : string) (n_neigh : Z) (augmentation : bool)
    (hid num_convs : Z) (w : World) :
  let t := trace_of (node_classification E dataset_path n_neigh augmentation
                       hid num_convs w) in
  let y := data_y (build_graph E (train_dataset_args dataset_path n_neigh augmentation)) in
  let y_val := data_y (build_graph E (val_dataset_args dataset_path n_neigh)) in
  (∃ criterion criterion_val,
     criteria_made t = [criterion; criterion_val] ∧
     criteria_made (before_train t) = [criterion; criterion_val] ∧
     Forall (λ a, ta_criterion a = criterion ∧ ta_criterion_val a = criterion_val)
       (train_calls t) ∧
     ∀ crit labels, In (crit, labels) [(criterion, y); (criterion_val, y_val)] →
       NoDup (np_unique labels) ∧
       (∀ c, c ∈ np_unique labels ↔ c ∈ labels) ∧
       length (ce_weight crit) = length (np_unique labels) ∧
       ∀ i j minority majority w_minority w_majority,
         np_unique labels !! i = Some minority →
         np_unique labels !! j = Some majority →
         ce_weight crit !! i = Some w_minority →
         ce_weight crit !! j = Some w_majority →
         ((bincount labels minority < bincount labels majority)%nat
          ↔ (w_majority < w_minority)%Q) ∧
         (∀ rnd : Q → Q, (∀ p q, (p <= q)%Q → (rnd p <= rnd q)%Q) →
            (bincount labels minority < bincount labels majority)%nat →
            (rnd w_majority <= rnd w_minority)%Q)).
Proof.
  intros t y y_val.
  destruct (criteria_of_the_run E dataset_path n_neigh augmentation hid
              num_convs w) as (H1 & H2 & H3).
  eexists _, _. split; [exact H1|]. split; [exact H2|]. split; [exact H3|].
  intros crit labels [[= <- <-]|[[= <- <-]|[]]];
    by apply class_weights_ordered.
Qed.

Lemma losses_weighted_witness :
  let labels := data_y Scenario.graph10 in
  let crit := CrossEntropyLoss (compute_class_weight labels) in
  np_unique labels !! 1%nat = Some 1 ∧ np_unique labels !! 0%nat = Some 0 ∧
  ce_weight crit !! 1%nat = Some (10 # 2) ∧
  ce_weight crit !! 0%nat = Some (10 # 18) ∧
  ((10 # 18) < (10 # 2))%Q.
Proof.
  intros labels crit.
  assert (H1 : np_unique labels !! 1%nat = Some 1) by reflexivity.
  assert (H0 : np_unique labels !! 0%nat = Some 0) by reflexivity.
  assert (W1 : ce_weight crit !! 1%nat = Some (10 # 2)) by reflexivity.
  assert (W0 : ce_weight crit !! 0%nat = Some (10 # 18)) by reflexivity.
  split; [exact H1|]. split; [exact H0|]. split; [exact W1|]. split; [exact W0|].
  destruct (losses_weighted_by_inverse_frequency Scenario.E "dataset" 0 true
              2048 16 Scenario.w0)
    as (criterion & criterion_val & Hmade & _ & _ & Hall).
  assert (Hcrit : criterion = crit).
  { assert (Hhd : head (criteria_made (trace_of (node_classification
        Scenario.E "dataset" 0 true 2048 16 Scenario.w0))) = Some crit)
      by (vm_compute; reflexivity).
    rewrite Hmade in Hhd. by injection Hhd. }
  destruct (Hall crit labels) as (_ & _ & _ & Hord).
  { left. by rewrite Hcrit. }
  apply (Hord 1%nat 0%nat 1 0 _ _ H1 H0 W1 W0). vm_compute. lia.
Defined.

(** ** The fixed values of a run *)

Lemma run_constants (E : Collaborators) (dataset_path : string)
    (n_neigh : Z) (augmentation : bool) (hid num_convs : Z) (w : World) :
  let t := trace_of (node_classification E dataset_path n_neigh augmentation
                       hid num_convs w) in
  let path :=
    model_trained_path
      (model_path (get_path_of_all E NAME_DIR n_neigh hid num_convs augmentation))
      (model_name n_neigh hid num_convs augmentation) in
  (λ m, (ma_alpha m, ma_theta m, ma_dropout m)) <$> models_made t
    = [(0.5, 0.7, 0.5)%Q] ∧
  (λ m, (ma_hid m, ma_num_convs m)) <$> models_made t = [(hid, num_convs)] ∧
  Forall (λ a, ta_epochs a = 1000 ∧ ta_patience a = 20) (train_calls t) ∧
  (files w !! path = None →
     (λ a, (ta_epochs a, ta_patience a)) <$> train_calls t = [(1000, 20)]).
Proof.
  intros t path. subst t path.
  run_main_cases E w.
  - split; [reflexivity|]. split; [reflexivity|]. split; [constructor|].
    discriminate.
  - split; [reflexivity|]. split; [reflexivity|].
    split; [by repeat constructor|reflexivity].
Qed.

(** C10: for every parsed command line and every machine state, the run
    builds its model with [alpha=0.5], [theta=0.7], [dropout=0.5] and
    trains, whenever it trains (that is, when no checkpoint exists), with
    [epochs=1000] and [patience=20].  The command line reaches the run only
    through the four attributes of the parsed arguments (augmentation,
    neighbour bound, hidden width, number of convolution blocks), which do
    set the model's width and depth, the neighbour bound and the
    augmentation of the train dataset. *)
Theorem propagation_and_schedule_are_fixed (E : Collaborators) (cwd : string)
    (args : Namespace) (w : World) :
  let t := trace_of (run_script E cwd args w) in
  let path :=
    model_trained_path
      (model_path (get_path_of_all E NAME_DIR (args_neigh args) (args_hid args)
                     (args_n_convs args) (args_aug args)))
      (model_name (args_neigh args) (args_hid args) (args_n_convs args)
         (args_aug args)) in
  (λ m, (ma_alpha m, ma_theta m, ma_dropout m)) <$> models_made t
    = [(0.5, 0.7, 0.5)%Q] ∧
  Forall (λ a, ta_epochs a = 1000 ∧ ta_patience a = 20) (train_calls t) ∧
  (files w !! path = None →
     (λ a, (ta_epochs a, ta_patience a)) <$> train_calls t = [(1000, 20)]) ∧
  (λ m, (ma_hid m, ma_num_convs m)) <$> models_made t
    = [(args_hid args, args_n_convs args)] ∧
  (λ d, (ds_num_neighbors d.1, ds_augmentation d.1))
    <$> datasets_built E (λ a, negb (is_val_or_test a)) t
    = [(args_neigh args, Some (args_aug args))].
Proof.
  intros t path. subst t path. unfold run_script.
  destruct (run_constants E (Py.path_join cwd "dataset") (args_neigh args)
              (args_aug args) (args_hid args) (args_n_convs args) w)
    as (Hmodel & Hsize & Htrain & Hone).
  split; [exact Hmodel|]. split; [exact Htrain|]. split; [exact Hone|].
  split; [exact Hsize|]. by rewrite train_dataset_built.
Qed.

Lemma propagation_and_schedule_witness :
  files Scenario.w0
    !! model_trained_path
         (model_path (get_path_of_all Scenario.E NAME_DIR 0 2048 16 true))
         (model_name 0 2048 16 true) = None ∧
  (λ a, (ta_epochs a, ta_patience a))
    <$> train_calls (trace_of (run_script Scenario.E "" parser_defaults
                                 Scenario.w0))
  = [(1000, 20)].
Proof.
  assert (Hnone : files Scenario.w0
    !! model_trained_path
         (model_path (get_path_of_all Scenario.E NAME_DIR 0 2048 16 true))
         (model_name 0 2048 16 true) = None) by (vm_compute; reflexivity).
  split; [exact Hnone|].
  by apply (propagation_and_schedule_are_fixed Scenario.E "" parser_defaults
              Scenario.w0).
Defined.
